(** * mc.core.assets: asset discovery, lifecycle, priority queue and loader

    A shallow embedding of [src/mc/core/assets.py] (classes [AssetManager],
    [AssetLoader] and [AssetClass]) together with the properties the
    specification states about it.

    Conventions
    - Python [int] is [Z]; [str] is [string]; a [dict] whose iteration order the
      code relies on is an insertion-ordered association list; a [dict] used
      only as a map (one asset's settings) is a [gmap string value].
    - Code that may raise returns a [result]; where mutations made before the
      raise stay visible, the state is threaded next to the result.
    - Objects that are shared by reference (asset instances sitting in both
      queues and in the per-class namespaces) live in a store indexed by
      reference. *)

From Stdlib Require Import ZArith String Ascii List Bool Lia.
From Stdlib Require Import DecimalString Decimal.
From stdpp Require Import base option list gmap strings fin_maps sorting.

Local Open Scope string_scope.
Local Open Scope Z_scope.

(** ** Exceptions and results *)

Inductive exn : Type :=
| KeyError (key : string)
| ValueError (msg : string)
| TypeError (msg : string)
| NotImplementedError
| IOError (msg : string).

Inductive result (A : Type) : Type :=
| Ok (a : A)
| Raise (e : exn).
Arguments Ok {A} a.
Arguments Raise {A} e.

(** A state monad with exceptions: mutations made before a raise persist, as
    they do in Python. *)
Definition M (S A : Type) : Type := S -> result A * S.

Definition ret {S A} (a : A) : M S A := fun s => (Ok a, s).
Definition raise {S A} (e : exn) : M S A := fun s => (Raise e, s).
Definition bind {S A B} (m : M S A) (k : A -> M S B) : M S B :=
  fun s => match m s with
           | (Ok a, s') => k a s'
           | (Raise e, s') => (Raise e, s')
           end.
Definition get_state {S} : M S S := fun s => (Ok s, s).
Definition modify {S} (f : S -> S) : M S unit := fun s => (Ok tt, f s).
Definition lift_result {S A} (r : result A) : M S A := fun s => (r, s).

Declare Scope py_scope.
Delimit Scope py_scope with py.
Notation "x <- m ;; k" := (bind m (fun x => k))
  (at level 100, m at next level, right associativity) : py_scope.
Notation "m ;;; k" := (bind m (fun _ => k))
  (at level 100, right associativity) : py_scope.

(** [for x in l: body x] *)
Fixpoint for_each {S A} (l : list A) (body : A -> M S unit) : M S unit :=
  match l with
  | [] => ret tt
  | x :: l' => bind (body x) (fun _ => for_each l' body)
  end.

(** ** Strings: the pieces of [str] and [os.path] (posixpath) the code calls *)

Module Str.

  (** [s.rfind(c)]: index of the last occurrence, [-1] when absent. *)
Fixpoint rfind_from (c : ascii) (s : string) (i : Z) (acc : Z) : Z :=
    match s with
    | EmptyString => acc
    | String x s' => rfind_from c s' (i + 1) (if Ascii.eqb x c then i else acc)
    end.
Definition rfind (c : ascii) (s : string) : Z := rfind_from c s 0 (-1).

  (** [s[i:]] and [s[:i]] for [i >= 0]. *)
Definition slice_from (i : Z) (s : string) : string :=
    String.substring (Z.to_nat i) (String.length s - Z.to_nat i) s.
Definition slice_to (i : Z) (s : string) : string :=
    String.substring 0 (Z.to_nat i) s.

  (** [s.startswith(p)] *)
Definition startswith (p s : string) : bool := String.prefix p s.

  (** [s.endswith(p)] *)
Definition endswith (p s : string) : bool :=
    (String.length p <=? String.length s)%nat &&
    String.eqb (String.substring (String.length s - String.length p)
                                 (String.length p) s) p.

  (** [s.endswith(t)] for a tuple [t] of suffixes. *)
Definition endswith_any (ps : list string) (s : string) : bool :=
    existsb (fun p => endswith p s) ps.

  (** [s.lower()] for ASCII text: the letters [A]-[Z] are lowered, every other
      character is kept. A property that states a lower-cased name is stated
      for ASCII file names ([is_ascii]). *)
Definition is_ascii (s : string) : bool :=
    forallb (fun c => (nat_of_ascii c <? 128)%nat) (list_ascii_of_string s).
Definition lower_ascii (c : ascii) : ascii :=
    let n := nat_of_ascii c in
    if ((65 <=? n) && (n <=? 90))%nat then ascii_of_nat (n + 32) else c.
Fixpoint lower (s : string) : string :=
    match s with
    | EmptyString => EmptyString
    | String c s' => String (lower_ascii c) (lower s')
    end.

  (** ["%s" % z] for an [int]. *)
Definition of_Z (z : Z) : string := NilZero.string_of_int (Z.to_int z).

  (** [a > b] on [str]: lexicographic on code points. *)
Definition gtb (a b : string) : bool := String.ltb b a.

End Str.

Module OsPath.

Definition sep : ascii := "/"%char.
Definition extsep : ascii := "."%char.

  (** [os.path.join(a, b)] *)
Definition join (a b : string) : string :=
    if Str.startswith "/" b then b
    else if String.eqb a "" || Str.endswith "/" a then a ++ b
    else a ++ "/" ++ b.

  (** [os.path.join(a, b, c)] *)
Definition join3 (a b c : string) : string := join (join a b) c.

  (** [os.path.basename(p)]: [i = p.rfind('/') + 1; return p[i:]] *)
Definition basename (p : string) : string :=
    let i := Str.rfind sep p + 1 in Str.slice_from i p.

  (** The loop of [genericpath._splitext] that skips leading dots: is there a
      character other than the dot in [p[filenameIndex:dotIndex]]? *)
Fixpoint has_non_dot (p : string) (filenameIndex dotIndex : Z) (n : nat) : bool :=
    match n with
    | O => false
    | S n' =>
        if filenameIndex <? dotIndex then
          if negb (String.eqb (String.substring (Z.to_nat filenameIndex) 1 p)
                              (String extsep EmptyString))
          then true
          else has_non_dot p (filenameIndex + 1) dotIndex n'
        else false
    end.

  (** [os.path.splitext(p)] *)
Definition splitext (p : string) : string * string :=
    let sepIndex := Str.rfind sep p in
    let dotIndex := Str.rfind extsep p in
    if (sepIndex <? dotIndex) &&
       has_non_dot p (sepIndex + 1) dotIndex (String.length p)
    then (Str.slice_to dotIndex p, Str.slice_from dotIndex p)
    else (p, "").

End OsPath.

(** ** Configuration data *)

(** A setting's value. *)
Inductive value : Type :=
| VNone
| VBool (b : bool)
| VInt (z : Z)
| VStr (s : string).

Global Instance value_eq_dec : EqDecision value.
Proof. solve_decision. Defined.

(** ["%s" % v] *)
Definition str_of_value (v : value) : string :=
  match v with
  | VNone => "None"
  | VBool true => "True"
  | VBool false => "False"
  | VInt z => Str.of_Z z
  | VStr s => s
  end.

(** One asset's settings: a [dict] the code only reads, writes and merges by
    key. *)
Abbreviation settings := (gmap string value).

(** [d.update(e)]: the keys of [e] win. *)
Definition dict_update (d e : settings) : settings := e ∪ d.

(** [d[k]] *)
Definition getitem {V} (k : string) (d : gmap string V) : result V :=
  match d !! k with
  | Some v => Ok v
  | None => Raise (KeyError k)
  end.

(** A [dict] whose iteration order is observable: keys in insertion order. *)
Module Odict.
Section Ops.
Context {V : Type}.

Fixpoint lookup (k : string) (d : list (string * V)) : option V :=
      match d with
      | [] => None
      | (k', v) :: d' => if String.eqb k k' then Some v else lookup k d'
      end.

    (** [d[k] = v]: an existing key keeps its position, a new one goes last. *)
Fixpoint set (k : string) (v : V) (d : list (string * V)) : list (string * V) :=
      match d with
      | [] => [(k, v)]
      | (k', v') :: d' =>
          if String.eqb k k' then (k', v) :: d' else (k', v') :: set k v d'
      end.

Definition keys (d : list (string * V)) : list string := map fst d.


Definition wf (d : list (string * V)) : Prop := NoDup (keys d).
End Ops.
End Odict.

(** The entries of one config section, asset name to settings. *)
Abbreviation section := (list (string * settings)).

(** An entry of [AssetManager._asset_classes] ([cls], the Python class
    object, is left out: it carries the two primitives, see [AssetImpl]). *)
Record asset_class : Type := {
  attribute : string;
  path_string : string;
  config_section : string;
  extensions : list string;
  priority : Z;
  defaults : gmap string settings
}.

Definition with_defaults (d : gmap string settings) (ac : asset_class) : asset_class :=
  {| attribute := attribute ac; path_string := path_string ac;
     config_section := config_section ac; extensions := extensions ac;
     priority := priority ac; defaults := d |}.

(** The machine (or mode) configuration as the asset manager reads it: the
    [assets:] block (config section, then folder name, then settings) and the
    per-class sections of named entries. *)
Record Config : Type := {
  cfg_assets : option (gmap string (gmap string settings));
  cfg_sections : list (string * section)
}.

(** ** Asset instances and the state they share with the manager *)

(** A reference to an asset object. *)
Abbreviation ref := nat.

(** What [load] is handed as [callback]: [None], or the callable number [n]. *)
Abbreviation callback := (option nat).

Module Asset.
  (** The attributes [AssetClass.__init__] sets. *)
Record t : Type := {
    name : string;
    config : settings;
    file : string;
    priority : value;
    _callbacks : gset callback;
    _id : Z;
    loading : bool;
    loaded : bool;
    unloading : bool
  }.

Definition set_priority (v : value) (a : t) : t :=
    {| name := name a; config := config a; file := file a; priority := v;
       _callbacks := _callbacks a; _id := _id a; loading := loading a;
       loaded := loaded a; unloading := unloading a |}.
Definition set__callbacks (v : gset callback) (a : t) : t :=
    {| name := name a; config := config a; file := file a; priority := priority a;
       _callbacks := v; _id := _id a; loading := loading a;
       loaded := loaded a; unloading := unloading a |}.
Definition set_loading (v : bool) (a : t) : t :=
    {| name := name a; config := config a; file := file a; priority := priority a;
       _callbacks := _callbacks a; _id := _id a; loading := v;
       loaded := loaded a; unloading := unloading a |}.
Definition set_loaded (v : bool) (a : t) : t :=
    {| name := name a; config := config a; file := file a; priority := priority a;
       _callbacks := _callbacks a; _id := _id a; loading := loading a;
       loaded := v; unloading := unloading a |}.
Definition set_unloading (v : bool) (a : t) : t :=
    {| name := name a; config := config a; file := file a; priority := priority a;
       _callbacks := _callbacks a; _id := _id a; loading := loading a;
       loaded := loaded a; unloading := v |}.
End Asset.

(** The two primitives a concrete asset class supplies. They run on the asset
    they are given and either return or raise; by contract they touch neither
    the manager's counters nor its queues. *)
Class AssetImpl : Type := {
  _do_load : Asset.t -> result unit;
  _do_unload : Asset.t -> result unit
}.

(** [AssetClass] itself: both primitives raise [NotImplementedError]. *)
Definition AssetClass_base : AssetImpl :=
  {| _do_load := fun _ => Raise NotImplementedError;
     _do_unload := fun _ => Raise NotImplementedError |}.

(** What the outside world observes, in order: callable [n] was called, the
    load primitive was invoked on [r], the unload primitive was invoked on
    [r]. A callback is user code; here it does nothing but get called. *)
Inductive event : Type :=
| Called (n : nat)
| DoLoad (r : ref)
| DoUnload (r : ref).

(** Callbacks registered with Kivy's [Clock]. *)
Inductive clock_event : Type :=
| check_loader_status_event
| startup_load_tracker_event.

Global Instance clock_event_eq_dec : EqDecision clock_event.
Proof. solve_decision. Defined.

(** An attribute of the [MpfMc] object: the name-to-asset dict that
    [register_asset_class] installs, or anything else. *)
Inductive attr : Type :=
| AssetDict (d : list (string * ref))
| OtherAttr.

(** The [MpfMc] object with its asset manager, the loader thread's queues, the
    asset objects and the class attribute [AssetClass._next_id]. *)
Record MpfMc : Type := {
  machine_path : string;
  machine_config : Config;
  attrs : gmap string attr;
  crash_queue : list string;
  _asset_classes : list asset_class;
  num_assets_to_load : Z;
  num_assets_loaded : Z;
  loader_queue : list ref;
  loaded_queue : list ref;
  _loaded_watcher : bool;
  clock : list clock_event;
  objects : gmap ref Asset.t;
  _next_id : Z;
  loader_alive : bool;
  trace : list event
}.

Definition set_machine_config (v : Config) (mc : MpfMc) : MpfMc :=
  {| machine_path := machine_path mc; machine_config := v; attrs := attrs mc; crash_queue := crash_queue mc; _asset_classes := _asset_classes mc; num_assets_to_load := num_assets_to_load mc; num_assets_loaded := num_assets_loaded mc; loader_queue := loader_queue mc; loaded_queue := loaded_queue mc; _loaded_watcher := _loaded_watcher mc; clock := clock mc; objects := objects mc; _next_id := _next_id mc; loader_alive := loader_alive mc; trace := trace mc |}.
Definition set_attrs (v : gmap string attr) (mc : MpfMc) : MpfMc :=
  {| machine_path := machine_path mc; machine_config := machine_config mc; attrs := v; crash_queue := crash_queue mc; _asset_classes := _asset_classes mc; num_assets_to_load := num_assets_to_load mc; num_assets_loaded := num_assets_loaded mc; loader_queue := loader_queue mc; loaded_queue := loaded_queue mc; _loaded_watcher := _loaded_watcher mc; clock := clock mc; objects := objects mc; _next_id := _next_id mc; loader_alive := loader_alive mc; trace := trace mc |}.
Definition set_crash_queue (v : list string) (mc : MpfMc) : MpfMc :=
  {| machine_path := machine_path mc; machine_config := machine_config mc; attrs := attrs mc; crash_queue := v; _asset_classes := _asset_classes mc; num_assets_to_load := num_assets_to_load mc; num_assets_loaded := num_assets_loaded mc; loader_queue := loader_queue mc; loaded_queue := loaded_queue mc; _loaded_watcher := _loaded_watcher mc; clock := clock mc; objects := objects mc; _next_id := _next_id mc; loader_alive := loader_alive mc; trace := trace mc |}.
Definition set__asset_classes (v : list asset_class) (mc : MpfMc) : MpfMc :=
  {| machine_path := machine_path mc; machine_config := machine_config mc; attrs := attrs mc; crash_queue := crash_queue mc; _asset_classes := v; num_assets_to_load := num_assets_to_load mc; num_assets_loaded := num_assets_loaded mc; loader_queue := loader_queue mc; loaded_queue := loaded_queue mc; _loaded_watcher := _loaded_watcher mc; clock := clock mc; objects := objects mc; _next_id := _next_id mc; loader_alive := loader_alive mc; trace := trace mc |}.
Definition set_num_assets_to_load (v : Z) (mc : MpfMc) : MpfMc :=
  {| machine_path := machine_path mc; machine_config := machine_config mc; attrs := attrs mc; crash_queue := crash_queue mc; _asset_classes := _asset_classes mc; num_assets_to_load := v; num_assets_loaded := num_assets_loaded mc; loader_queue := loader_queue mc; loaded_queue := loaded_queue mc; _loaded_watcher := _loaded_watcher mc; clock := clock mc; objects := objects mc; _next_id := _next_id mc; loader_alive := loader_alive mc; trace := trace mc |}.
Definition set_num_assets_loaded (v : Z) (mc : MpfMc) : MpfMc :=
  {| machine_path := machine_path mc; machine_config := machine_config mc; attrs := attrs mc; crash_queue := crash_queue mc; _asset_classes := _asset_classes mc; num_assets_to_load := num_assets_to_load mc; num_assets_loaded := v; loader_queue := loader_queue mc; loaded_queue := loaded_queue mc; _loaded_watcher := _loaded_watcher mc; clock := clock mc; objects := objects mc; _next_id := _next_id mc; loader_alive := loader_alive mc; trace := trace mc |}.
Definition set_loader_queue (v : list ref) (mc : MpfMc) : MpfMc :=
  {| machine_path := machine_path mc; machine_config := machine_config mc; attrs := attrs mc; crash_queue := crash_queue mc; _asset_classes := _asset_classes mc; num_assets_to_load := num_assets_to_load mc; num_assets_loaded := num_assets_loaded mc; loader_queue := v; loaded_queue := loaded_queue mc; _loaded_watcher := _loaded_watcher mc; clock := clock mc; objects := objects mc; _next_id := _next_id mc; loader_alive := loader_alive mc; trace := trace mc |}.
Definition set_loaded_queue (v : list ref) (mc : MpfMc) : MpfMc :=
  {| machine_path := machine_path mc; machine_config := machine_config mc; attrs := attrs mc; crash_queue := crash_queue mc; _asset_classes := _asset_classes mc; num_assets_to_load := num_assets_to_load mc; num_assets_loaded := num_assets_loaded mc; loader_queue := loader_queue mc; loaded_queue := v; _loaded_watcher := _loaded_watcher mc; clock := clock mc; objects := objects mc; _next_id := _next_id mc; loader_alive := loader_alive mc; trace := trace mc |}.
Definition set__loaded_watcher (v : bool) (mc : MpfMc) : MpfMc :=
  {| machine_path := machine_path mc; machine_config := machine_config mc; attrs := attrs mc; crash_queue := crash_queue mc; _asset_classes := _asset_classes mc; num_assets_to_load := num_assets_to_load mc; num_assets_loaded := num_assets_loaded mc; loader_queue := loader_queue mc; loaded_queue := loaded_queue mc; _loaded_watcher := v; clock := clock mc; objects := objects mc; _next_id := _next_id mc; loader_alive := loader_alive mc; trace := trace mc |}.
Definition set_clock (v : list clock_event) (mc : MpfMc) : MpfMc :=
  {| machine_path := machine_path mc; machine_config := machine_config mc; attrs := attrs mc; crash_queue := crash_queue mc; _asset_classes := _asset_classes mc; num_assets_to_load := num_assets_to_load mc; num_assets_loaded := num_assets_loaded mc; loader_queue := loader_queue mc; loaded_queue := loaded_queue mc; _loaded_watcher := _loaded_watcher mc; clock := v; objects := objects mc; _next_id := _next_id mc; loader_alive := loader_alive mc; trace := trace mc |}.
Definition set_objects (v : gmap ref Asset.t) (mc : MpfMc) : MpfMc :=
  {| machine_path := machine_path mc; machine_config := machine_config mc; attrs := attrs mc; crash_queue := crash_queue mc; _asset_classes := _asset_classes mc; num_assets_to_load := num_assets_to_load mc; num_assets_loaded := num_assets_loaded mc; loader_queue := loader_queue mc; loaded_queue := loaded_queue mc; _loaded_watcher := _loaded_watcher mc; clock := clock mc; objects := v; _next_id := _next_id mc; loader_alive := loader_alive mc; trace := trace mc |}.
Definition set__next_id (v : Z) (mc : MpfMc) : MpfMc :=
  {| machine_path := machine_path mc; machine_config := machine_config mc; attrs := attrs mc; crash_queue := crash_queue mc; _asset_classes := _asset_classes mc; num_assets_to_load := num_assets_to_load mc; num_assets_loaded := num_assets_loaded mc; loader_queue := loader_queue mc; loaded_queue := loaded_queue mc; _loaded_watcher := _loaded_watcher mc; clock := clock mc; objects := objects mc; _next_id := v; loader_alive := loader_alive mc; trace := trace mc |}.
Definition set_loader_alive (v : bool) (mc : MpfMc) : MpfMc :=
  {| machine_path := machine_path mc; machine_config := machine_config mc; attrs := attrs mc; crash_queue := crash_queue mc; _asset_classes := _asset_classes mc; num_assets_to_load := num_assets_to_load mc; num_assets_loaded := num_assets_loaded mc; loader_queue := loader_queue mc; loaded_queue := loaded_queue mc; _loaded_watcher := _loaded_watcher mc; clock := clock mc; objects := objects mc; _next_id := _next_id mc; loader_alive := v; trace := trace mc |}.
Definition set_trace (v : list event) (mc : MpfMc) : MpfMc :=
  {| machine_path := machine_path mc; machine_config := machine_config mc; attrs := attrs mc; crash_queue := crash_queue mc; _asset_classes := _asset_classes mc; num_assets_to_load := num_assets_to_load mc; num_assets_loaded := num_assets_loaded mc; loader_queue := loader_queue mc; loaded_queue := loaded_queue mc; _loaded_watcher := _loaded_watcher mc; clock := clock mc; objects := objects mc; _next_id := _next_id mc; loader_alive := loader_alive mc; trace := v |}.

(** ** Discovery: [AssetManager._create_asset_config_entries] *)

(** ['{}_start'.format(mode_name)] *)
Definition mode_start_key (mode_name : option string) : string :=
  match mode_name with
  | Some m => m ++ "_start"
  | None => "None_start"
  end.

(** The test of the scan [for k, v in config.items()]:
    [('file' in v and v['file'] == file_name) or name == k]. *)
Definition entry_matches (file_name name : string) (kv : string * settings) : bool :=
  bool_decide (snd kv !! "file" = Some (VStr file_name)) || String.eqb name (fst kv).

(** The scan stops at the first matching entry ([break]). *)
Definition find_entry (file_name name : string) (config : section)
  : option (string * settings) :=
  List.find (entry_matches file_name name) config.

(** [default_string] for a file found in directory [path]. *)
Definition default_string (ac : asset_class) (path : string) : string :=
  let folder := OsPath.basename path in
  if String.eqb folder (path_string ac)
     || negb (bool_decide (is_Some (defaults ac !! folder)))
  then "default" else folder.

(** The body of the loop over [valid_files] up to, but not including, the
    final [config[name] = built_up_config]: the resolved name and the built-up
    config of one file. *)
Definition built_up_config (ac : asset_class) (mode_name : option string)
    (config : section) (path file_name : string) : result (string * settings) :=
  let name := Str.lower (fst (OsPath.splitext file_name)) in
  let full_file_path := OsPath.join path file_name in
  match getitem (default_string ac path) (defaults ac) with
  | Raise e => Raise e
  | Ok base =>
      let '(name, built) :=
        match find_entry file_name name config with
        | Some (k, v) => (k, dict_update base v)
        | None => (name, base)
        end in
      let built := <["file" := VStr full_file_path]> built in
      match getitem "load" built with
      | Raise e => Raise e
      | Ok load =>
          let built :=
            if bool_decide (load = VStr "mode_start")
            then <["load" := VStr (mode_start_key mode_name)]> built
            else built in
          Ok (name, built)
      end
  end.

(** One iteration of the loop over [valid_files], ending with
    [config[name] = built_up_config]. *)
Definition process_file (ac : asset_class) (mode_name : option string)
    (pf : string * string) : M section unit :=
  fun config =>
    match built_up_config ac mode_name config (fst pf) (snd pf) with
    | Ok (name, built) => (Ok tt, Odict.set name built config)
    | Raise e => (Raise e, config)
    end.

(** [[f for f in files if f.endswith(asset_class['extensions'])]] *)
Definition valid_files (ac : asset_class) (files : list string) : list string :=
  List.filter (Str.endswith_any (extensions ac)) files.

Section FileSystem.
(** The file system as [os.walk(root, followlinks=True)] shows it (the
    directories under [root] in walk order, each with its file names) and as
    [os.path.isfile] does. *)
Variable os_walk : string -> list (string * list string).
Variable os_path_isfile : string -> bool.

(** The files of the walk in processing order, each with its directory. *)
Definition discovered (ac : asset_class) (root_path : string)
  : list (string * string) :=
  flat_map (fun pfs => map (fun f => (fst pfs, f)) (valid_files ac (snd pfs)))
           (os_walk root_path).

(** Returns the config [dict] next to the result: entries written before a
    raise stay written. *)
Definition _create_asset_config_entries (mc : MpfMc) (ac : asset_class)
    (config : section) (mode_name : option string) (path : option string)
  : result section * section :=
  let path := match path with
              | Some p => if String.eqb p "" then machine_path mc else p
              | None => machine_path mc
              end in
  let root_path := OsPath.join path (path_string ac) in
  match for_each (discovered ac root_path) (process_file ac mode_name) config with
  | (Ok _, config') => (Ok config', config')
  | (Raise e, config') => (Raise e, config')
  end.

(** ** [AssetManager.locate_asset_file] *)

(** [for path in path_list: ...], then the [raise]. *)
Fixpoint locate_in (path_list : list string) (path_string file_name : string)
  : result string :=
  match path_list with
  | [] => Raise (ValueError ("Could not locate image '" ++ file_name ++ "'"))
  | path :: rest =>
      let full_path := OsPath.join3 path path_string file_name in
      if os_path_isfile full_path then Ok full_path
      else locate_in rest path_string file_name
  end.

Definition locate_asset_file (mc : MpfMc) (file_name path_string : string)
    (path : option string) : result string :=
  let path_list := match path with
                   | Some p => if String.eqb p "" then [] else [p]
                   | None => []
                   end in
  let path_list := (path_list ++ [machine_path mc])%list in
  locate_in path_list path_string file_name.

End FileSystem.

(** ** Registration: [_set_asset_class_defaults] and [register_asset_class] *)

(** The folder-keyed defaults computed from [this_config] once its
    ['default'] entry has been popped: ['default'] verbatim, every other
    section a copy of it updated with the section's own settings. *)
Definition folder_defaults (dflt : settings) (this_config : gmap string settings)
  : gmap string settings :=
  <["default" := dflt]> ((fun s => dict_update dflt s) <$> this_config).

(** [_set_asset_class_defaults(asset_class, config)]: returns the new
    [asset_class['defaults']]; the state is the [assets:] block of [config],
    in which the [pop] removes the ['default'] entry. *)
Definition _set_asset_class_defaults (ac : asset_class)
  : M (option (gmap string (gmap string settings))) (gmap string settings) :=
  fun assets =>
    match assets with
    | Some a =>
        if bool_decide (a = ∅) then (Ok ∅, assets)
        else
          match a !! config_section ac with
          | Some this_config =>
              if bool_decide (this_config = ∅) then (Ok ∅, assets)
              else
                match this_config !! "default" with
                | None => (Raise (KeyError "default"), assets)
                | Some dflt =>
                    let this_config' := delete "default" this_config in
                    (Ok (folder_defaults dflt this_config'),
                     Some (<[config_section ac := this_config']> a))
                end
          | None => (Ok ∅, assets)
          end
    | None => (Ok ∅, assets)
    end.

(** [list.sort(key=lambda x: x['priority'], reverse=True)]: stable, highest
    priority first. *)
Fixpoint insert_by_priority (x : asset_class) (l : list asset_class)
  : list asset_class :=
  match l with
  | [] => [x]
  | y :: l' =>
      if priority x <? priority y then y :: insert_by_priority x l'
      else x :: y :: l'
  end.

Definition sort_by_priority (l : list asset_class) : list asset_class :=
  foldr insert_by_priority [] l.

(** [asset_class['defaults'] = default_config_dict] on the entry of
    [_asset_classes] registered under [attr_name] (the [hasattr] guard keeps
    attribute names unique, so this is the object [ac] aliases). *)
Definition store_defaults (attr_name : string) (d : gmap string settings)
    (l : list asset_class) : list asset_class :=
  map (fun c => if String.eqb (attribute c) attr_name then with_defaults d c else c) l.

Definition set_cfg_assets (a : option (gmap string (gmap string settings)))
    (c : Config) : Config :=
  {| cfg_assets := a; cfg_sections := cfg_sections c |}.

Definition register_asset_class (attribute config_section path_string : string)
    (extensions : list string) (priority : Z) : M MpfMc unit :=
  fun mc =>
    match attrs mc !! attribute with
    | Some _ =>
        (Raise (ValueError ("Cannot set self.mc." ++ attribute
                            ++ " as it already exists.")), mc)
    | None =>
        let mc := set_attrs (<[attribute := AssetDict []]> (attrs mc)) mc in
        let ac := Build_asset_class attribute path_string config_section
                                    extensions priority ∅ in
        let mc := set__asset_classes
                    (sort_by_priority (_asset_classes mc ++ [ac])%list) mc in
        match _set_asset_class_defaults ac (cfg_assets (machine_config mc)) with
        | (Ok d, assets') =>
            let mc := set_machine_config
                        (set_cfg_assets assets' (machine_config mc)) mc in
            (Ok tt,
             set__asset_classes (store_defaults attribute d (_asset_classes mc)) mc)
        | (Raise e, assets') =>
            (Raise e,
             set_machine_config (set_cfg_assets assets' (machine_config mc)) mc)
        end
    end.

(** ** The loader queue: [queue.PriorityQueue] over Python's [heapq] *)

Section heapq.
Context {A : Type} (lt : A -> A -> bool).

(** The [while pos > startpos] loop of [heapq._siftdown]. *)
Fixpoint _siftdown_loop (fuel : nat) (heap : list A) (newitem : A)
    (startpos pos : nat) : list A :=
  match fuel with
  | O => <[pos := newitem]> heap
  | S fuel' =>
      if (startpos <? pos)%nat then
        let parentpos := ((pos - 1) / 2)%nat in
        match heap !! parentpos with
        | Some parent =>
            if lt newitem parent
            then _siftdown_loop fuel' (<[pos := parent]> heap) newitem startpos parentpos
            else <[pos := newitem]> heap
        | None => <[pos := newitem]> heap
        end
      else <[pos := newitem]> heap
  end.

Definition _siftdown (heap : list A) (startpos pos : nat) : list A :=
  match heap !! pos with
  | Some newitem => _siftdown_loop pos heap newitem startpos pos
  | None => heap
  end.

(** The [while childpos < endpos] loop of [heapq._siftup]; returns the heap
    and the position of the hole. *)
Fixpoint _siftup_loop (fuel : nat) (heap : list A) (pos : nat) : list A * nat :=
  match fuel with
  | O => (heap, pos)
  | S fuel' =>
      let endpos := length heap in
      let childpos := (2 * pos + 1)%nat in
      if (childpos <? endpos)%nat then
        let rightpos := (childpos + 1)%nat in
        let childpos :=
          match heap !! childpos, heap !! rightpos with
          | Some l, Some r => if negb (lt l r) then rightpos else childpos
          | _, _ => childpos
          end in
        match heap !! childpos with
        | Some c => _siftup_loop fuel' (<[pos := c]> heap) childpos
        | None => (heap, pos)
        end
      else (heap, pos)
  end.

Definition _siftup (heap : list A) (pos : nat) : list A :=
  match heap !! pos with
  | Some newitem =>
      let '(heap', pos') := _siftup_loop (length heap) heap pos in
      _siftdown (<[pos' := newitem]> heap') pos pos'
  | None => heap
  end.

(** [heapq.heappush(heap, item)] *)
Definition heappush (heap : list A) (item : A) : list A :=
  _siftdown (heap ++ [item]) 0 (length heap).

(** [heapq.heappop(heap)]; [None] on the empty heap, where
    [PriorityQueue.get] blocks instead of calling it. *)
Definition heappop (heap : list A) : option (A * list A) :=
  match last heap with
  | None => None
  | Some lastelt =>
      let heap := removelast heap in
      match heap with
      | [] => Some (lastelt, [])
      | returnitem :: _ => Some (returnitem, _siftup (<[0%nat := lastelt]> heap) 0)
      end
  end.

End heapq.

(** ** [AssetClass] *)

(** [AssetClass._get_id] *)
Definition _get_id : M MpfMc Z :=
  fun mc =>
    let mc := set__next_id (_next_id mc + 1) mc in
    (Ok (_next_id mc), mc).

(** [config.get('priority', 0)] *)
Definition config_priority (config : settings) : value :=
  match config !! "priority" with
  | Some v => v
  | None => VInt 0
  end.

(** [AssetClass.__init__]: the new object gets a reference no live object
    has. *)
Definition new_asset (name file : string) (config : settings) : M MpfMc ref :=
  fun mc =>
    match _get_id mc with
    | (Ok id, mc) =>
        let r := fresh (dom (objects mc)) in
        let a := {| Asset.name := name; Asset.config := config; Asset.file := file;
                    Asset.priority := config_priority config;
                    Asset._callbacks := ∅; Asset._id := id;
                    Asset.loading := false; Asset.loaded := false;
                    Asset.unloading := false |} in
        (Ok r, set_objects (<[r := a]> (objects mc)) mc)
    | (Raise e, mc) => (Raise e, mc)
    end.

(** The key ["%s, %s" % (self.priority, self._id)]. *)
Definition sort_key (a : Asset.t) : string :=
  str_of_value (Asset.priority a) ++ ", " ++ Str.of_Z (Asset._id a).

(** [AssetClass.__lt__] *)
Definition __lt__ (self other : Asset.t) : bool :=
  Str.gtb (sort_key self) (sort_key other).

(** [a < b] on two references held by the queue. *)
Definition ref_lt (mc : MpfMc) (a b : ref) : bool :=
  match objects mc !! a, objects mc !! b with
  | Some x, Some y => __lt__ x y
  | _, _ => false
  end.

(** In-place update of the object behind a reference. *)
Definition update_asset (r : ref) (f : Asset.t -> Asset.t) (mc : MpfMc) : MpfMc :=
  set_objects (alter f r (objects mc)) mc.

(** The callables among the pending callbacks, in the order the [set] is
    iterated. *)
Definition callables (cbs : gset callback) : list nat :=
  omap id (elements cbs).

(** [AssetClass._call_callbacks] *)
Definition _call_callbacks (self : ref) : M MpfMc unit :=
  fun mc =>
    match objects mc !! self with
    | Some a =>
        let mc := set_trace (trace mc ++ map Called (callables (Asset._callbacks a)))%list mc in
        (Ok tt, update_asset self (Asset.set__callbacks ∅) mc)
    | None => (Ok tt, mc)
    end.

(** [AssetClass._loaded] *)
Definition _loaded (self : ref) : M MpfMc unit :=
  fun mc =>
    let mc := update_asset self (Asset.set_loading false) mc in
    let mc := update_asset self (Asset.set_loaded true) mc in
    let mc := update_asset self (Asset.set_unloading false) mc in
    _call_callbacks self mc.

Section Primitives.
Context {impl : AssetImpl}.

(** [AssetClass.unload] *)
Definition unload (self : ref) : M MpfMc unit :=
  fun mc =>
    let mc := update_asset self (Asset.set_unloading true) mc in
    let mc := update_asset self (Asset.set_loaded false) mc in
    let mc := update_asset self (Asset.set_loading false) mc in
    match objects mc !! self with
    | Some a =>
        let mc := set_trace (trace mc ++ [DoUnload self])%list mc in
        match _do_unload a with
        | Ok _ => (Ok tt, update_asset self (Asset.set_unloading false) mc)
        | Raise e => (Raise e, mc)
        end
    | None => (Ok tt, mc)
    end.

(** ** [AssetManager]: requesting loads and polling for completions *)

(** [AssetManager._load_asset] *)
Definition _load_asset (asset : ref) : M MpfMc unit :=
  fun mc =>
    let mc := set_num_assets_to_load (num_assets_to_load mc + 1) mc in
    let mc := set_loader_queue (heappush (ref_lt mc) (loader_queue mc) asset) mc in
    if negb (_loaded_watcher mc) then
      let mc := set_clock (clock mc ++ [check_loader_status_event])%list mc in
      (Ok tt, set__loaded_watcher true mc)
    else (Ok tt, mc).

(** [AssetClass.load] *)
Definition load (self : ref) (callback : callback) (priority : option value)
  : M MpfMc unit :=
  fun mc =>
    let mc := match priority with
              | Some p => update_asset self (Asset.set_priority p) mc
              | None => mc
              end in
    let mc := update_asset self
                (fun a => Asset.set__callbacks ({[callback]} ∪ Asset._callbacks a) a) mc in
    match objects mc !! self with
    | Some a =>
        if Asset.loaded a then _call_callbacks self mc
        else
          let mc := update_asset self (Asset.set_loading true) mc in
          _load_asset self mc
    | None => (Ok tt, mc)
    end.

(** The [while not self.loaded_queue.empty()] loop of
    [_check_loader_status]. *)
Fixpoint drain_loaded_queue (q : list ref) : M MpfMc unit :=
  match q with
  | [] => ret tt
  | asset :: q' =>
      fun mc =>
        let mc := set_loaded_queue q' mc in
        match _loaded asset mc with
        | (Ok _, mc) =>
            let mc := set_num_assets_loaded (num_assets_loaded mc + 1) mc in
            drain_loaded_queue q' mc
        | (Raise e, mc) => (Raise e, mc)
        end
  end.

(** [AssetManager._check_loader_status] (the two [print]s left out). *)
Definition _check_loader_status : M MpfMc unit :=
  fun mc =>
    match drain_loaded_queue (loaded_queue mc) mc with
    | (Ok _, mc) =>
        if num_assets_to_load mc =? num_assets_loaded mc then
          let mc := set_num_assets_loaded 0 mc in
          let mc := set_num_assets_to_load 0 mc in
          let mc := set_clock
                      (filter (fun e => e <> check_loader_status_event) (clock mc)) mc in
          (Ok tt, set__loaded_watcher false mc)
        else (Ok tt, mc)
    | (Raise e, mc) => (Raise e, mc)
    end.

(** ** [AssetLoader]: the loader thread *)

(** The text [run] sends to the crash queue, the joined lines of
    [traceback.format_exception]: it names the exception and its message. *)
Definition format_exception (e : exn) : string :=
  "Traceback (most recent call last): " ++
  match e with
  | KeyError k => "KeyError: '" ++ k ++ "'"
  | ValueError m => "ValueError: " ++ m
  | TypeError m => "TypeError: " ++ m
  | NotImplementedError => "NotImplementedError"
  | IOError m => "OSError: " ++ m
  end.

(** What one turn of [while True] in [AssetLoader.run] comes to: blocked in
    [loader_queue.get()] on the empty queue; the body ran to its end and the
    loop goes on; or an exception left the loop and the thread ends. *)
Inductive turn : Type :=
| Blocked
| Continue (mc : MpfMc)
| Crashed (mc : MpfMc).

(** [not asset.loaded], then [asset._do_load()]: the outcome, and the trace
    with the invocation. *)
Definition load_if_needed (asset : ref) (a : Asset.t) (mc : MpfMc)
  : result unit * MpfMc :=
  if negb (Asset.loaded a)
  then (_do_load a, set_trace (trace mc ++ [DoLoad asset])%list mc)
  else (Ok tt, mc).

(** One turn of the loop, with the [except Exception] handler around it. *)
Definition run_turn (mc : MpfMc) : turn :=
  match heappop (ref_lt mc) (loader_queue mc) with
  | None => Blocked
  | Some (asset, q') =>
      let mc := set_loader_queue q' mc in
      match objects mc !! asset with
      | Some a =>
          match load_if_needed asset a mc with
          | (Ok _, mc) =>
              Continue (set_loaded_queue (loaded_queue mc ++ [asset])%list mc)
          | (Raise e, mc) =>
              let mc := set_crash_queue (crash_queue mc ++ [format_exception e])%list mc in
              Crashed (set_loader_alive false mc)
          end
      | None => Continue mc
      end
  end.

(** [AssetLoader.run] for as long as the queue has requests and no producer
    adds one: it ends blocked on the empty queue, or crashed. *)
Fixpoint run (fuel : nat) (mc : MpfMc) : MpfMc :=
  match fuel with
  | O => mc
  | S fuel' =>
      match run_turn mc with
      | Blocked => mc
      | Continue mc' => run fuel' mc'
      | Crashed mc' => mc'
      end
  end.

(** The assets [run] hands to [loader_queue.get()], in order. *)
Fixpoint dequeue_order (fuel : nat) (mc : MpfMc) : list ref :=
  match fuel with
  | O => []
  | S fuel' =>
      match heappop (ref_lt mc) (loader_queue mc) with
      | Some (asset, q') => asset :: dequeue_order fuel' (set_loader_queue q' mc)
      | None => []
      end
  end.

(** ** The control thread and the loader thread side by side *)

(** Kivy's clock calls [_check_loader_status] while it is scheduled. *)
Definition clock_tick : M MpfMc unit :=
  fun mc =>
    if bool_decide (check_loader_status_event ∈ clock mc)
    then _check_loader_status mc
    else (Ok tt, mc).

(** What happens to the counters' world, one step at a time: the control
    thread requests a load, the loader thread publishes a finished asset, the
    clock ticks. *)
Inductive action : Type :=
| Request (asset : ref)
| Publish (asset : ref)
| Tick.

Definition perform (act : action) : M MpfMc unit :=
  match act with
  | Request asset => _load_asset asset
  | Publish asset => modify (fun mc => set_loaded_queue (loaded_queue mc ++ [asset])%list mc)
  | Tick => clock_tick
  end.

Definition is_request (act : action) : bool :=
  match act with Request _ => true | _ => false end.
Definition is_publish (act : action) : bool :=
  match act with Publish _ => true | _ => false end.

(** The loader only publishes what was requested: no prefix of the history
    has more [Publish] than [Request]. [requested] and [published] count the
    prefix so far. *)
Fixpoint causal_from (requested published : nat) (acts : list action) : bool :=
  match acts with
  | [] => true
  | Request _ :: acts' => causal_from (S requested) published acts'
  | Publish _ :: acts' =>
      (S published <=? requested)%nat && causal_from requested (S published) acts'
  | Tick :: acts' => causal_from requested published acts'
  end.
Definition causal (acts : list action) : bool := causal_from 0 0 acts.

End Primitives.

(** ** Auxiliary definitions used to state the properties *)

(** The [load] rewrite at the end of the loop body of
    [_create_asset_config_entries]. *)
Definition rewrite_load (mode_name : option string) (built : settings) : settings :=
  if bool_decide (built !! "load" = Some (VStr "mode_start"))
  then <["load" := VStr (mode_start_key mode_name)]> built
  else built.


(** ** Example worlds *)

(** An [MpfMc] with nothing registered, whose [assets:] block is [assets]. *)
Definition mc_with_assets (assets : option (gmap string (gmap string settings))) : MpfMc :=
  {| machine_path := "/machine";
     machine_config := {| cfg_assets := assets; cfg_sections := [] |};
     attrs := ∅; crash_queue := []; _asset_classes := [];
     num_assets_to_load := 0; num_assets_loaded := 0;
     loader_queue := []; loaded_queue := [];
     _loaded_watcher := false; clock := []; objects := ∅; _next_id := 0;
     loader_alive := true; trace := [] |}.

(** [assets: images: default: {a: 1}, foo: {b: 2}] *)
Definition assets_a1_b2 : gmap string (gmap string settings) :=
  {[ "images" := {[ "default" := {[ "a" := VInt 1 ]};
                    "foo" := {[ "b" := VInt 2 ]} ]} ]}.

(** The same with a [load] setting in the default. *)
Definition assets_a1_b2_load : gmap string (gmap string settings) :=
  {[ "images" := {[ "default" := {[ "a" := VInt 1; "load" := VStr "preload" ]};
                    "foo" := {[ "b" := VInt 2 ]} ]} ]}.

(** The image class as [register_asset_class] leaves it in
    [_asset_classes]. *)
Definition registered_images (assets : gmap string (gmap string settings)) : asset_class :=
  match snd (register_asset_class "images" "images" "images" [".png"] 0
                                  (mc_with_assets (Some assets))) with
  | mc => match _asset_classes mc with
          | ac :: _ => ac
          | [] => Build_asset_class "" "" "" [] 0 ∅
          end
  end.

(** [/machine/images/foo/x.png] is the only file on disk. *)
Definition walk_foo_x (root : string) : list (string * list string) :=
  if String.eqb root "/machine/images"
  then [("/machine/images", []); ("/machine/images/foo", ["x.png"; "notes.txt"])]
  else [].

(** [images: x: {a: 9}] *)
Definition entries_x_a9 : section := [("x", {[ "a" := VInt 9 ]})].

(** The built-up config the last file resolving to [x] got, if any file of
    the log resolved to [x]. *)
Fixpoint last_built (x : string) (log : list (string * settings)) : option settings :=
  match log with
  | [] => None
  | (n, b) :: rest =>
      match last_built x rest with
      | Some b' => Some b'
      | None => if String.eqb x n then Some b else None
      end
  end.




(** [images: a: {load: preload}] *)
Definition entries_a_load : section := [("a", {[ "load" := VStr "preload" ]})].

(** A disk where the mode folder lacks [a.png] and the machine folder has
    it. *)
Definition isfile_machine_only (p : string) : bool :=
  String.eqb p "/machine/images/a.png".

(** An asset class whose primitives always succeed. *)
Definition AssetClass_ok : AssetImpl :=
  {| _do_load := fun _ => Ok tt; _do_unload := fun _ => Ok tt |}.

(** An asset as [__init__] leaves it, with the given id and priority. *)
Definition fresh_asset (name : string) (id : Z) (priority : value) : Asset.t :=
  {| Asset.name := name; Asset.config := {[ "load" := VStr "preload" ]};
     Asset.file := "/machine/images/" ++ name ++ ".png";
     Asset.priority := priority; Asset._callbacks := ∅; Asset._id := id;
     Asset.loading := false; Asset.loaded := false; Asset.unloading := false |}.

(** A world holding one loaded asset, at reference [0], with callable [7]
    pending. *)
Definition mc_one_loaded : MpfMc :=
  set_objects
    {[ 0%nat := Asset.set__callbacks {[ Some 7%nat ]}
                  (Asset.set_loaded true (fresh_asset "a" 1 (VInt 0))) ]}
    (mc_with_assets None).

(** Starting from [mc_with_assets None], three assets created in the order
    [a], [b], [c] (ids 1, 2, 3), all of priority 0, and [load()] called on
    each in that order before the loader thread takes anything. *)
Definition mc_three_queued : MpfMc :=
  snd ((a <- new_asset "a" "/machine/images/a.png" {[ "load" := VStr "preload" ]} ;;
        b <- new_asset "b" "/machine/images/b.png" {[ "load" := VStr "preload" ]} ;;
        c <- new_asset "c" "/machine/images/c.png" {[ "load" := VStr "preload" ]} ;;
        load a None None ;;;
        load b None None ;;;
        load c None None)%py (mc_with_assets None)).

(** Two assets, of priority 10 (id 1) and 9 (id 2), [load()] called on the
    first and then on the second. *)
Definition mc_ten_nine_queued : MpfMc :=
  snd ((a <- new_asset "a" "/machine/images/a.png" {[ "priority" := VInt 10 ]} ;;
        b <- new_asset "b" "/machine/images/b.png" {[ "priority" := VInt 9 ]} ;;
        load a None None ;;;
        load b None None)%py (mc_with_assets None)).

(** One asset, [load()] called on it with callable [7]. *)
Definition mc_one_queued : MpfMc :=
  snd ((a <- new_asset "a" "/machine/images/a.png" {[ "load" := VStr "preload" ]} ;;
        load a (Some 7%nat) None)%py (mc_with_assets None)).

(** The id and priority of the asset behind a reference. *)
Definition id_and_priority (mc : MpfMc) (r : ref) : option (Z * value) :=
  (fun a => (Asset._id a, Asset.priority a)) <$> objects mc !! r.

(** The state of the progress counters after [requested] increments and
    [published] completions, of which those still in [loaded_queue] are not
    yet counted: a batch is under way and the poll is scheduled, or the
    manager is idle. *)
Definition counters_inv (mc : MpfMc) (requested published : nat) : Prop :=
  let waiting := Z.of_nat (length (loaded_queue mc)) in
  num_assets_to_load mc - num_assets_loaded mc
    = Z.of_nat requested - (Z.of_nat published - waiting)
  /\ (published <= requested)%nat
  /\ ((num_assets_loaded mc < num_assets_to_load mc
       /\ 0 <= num_assets_loaded mc
       /\ _loaded_watcher mc = true
       /\ check_loader_status_event ∈ clock mc)
      \/ (num_assets_to_load mc = 0
          /\ num_assets_loaded mc = 0
          /\ _loaded_watcher mc = false
          /\ check_loader_status_event ∉ clock mc)).

(** How many times a history incremented [num_assets_to_load], and how many
    completions the loader published in it. *)
Definition requests (acts : list action) : nat :=
  length (List.filter is_request acts).
Definition publishes (acts : list action) : nat :=
  length (List.filter is_publish acts).

(** Two assets created and nothing requested yet. *)
Definition mc_two_created : MpfMc :=
  snd ((_ <- new_asset "a" "/machine/images/a.png" {[ "load" := VStr "preload" ]} ;;
        _ <- new_asset "b" "/machine/images/b.png" {[ "load" := VStr "preload" ]} ;;
        ret tt)%py (mc_with_assets None)).

(** A batch of two: both requested, the first completion polled on its own,
    then the second. *)
Definition batch_of_two : list action :=
  [Request 0%nat; Request 1%nat; Publish 0%nat; Tick; Tick; Publish 1%nat; Tick].

(** ** Further definitions used to state properties of the registry *)

(** [x] may stand before [y] in [_asset_classes]: its priority is not
    lower. *)
Definition priority_ge (x y : asset_class) : Prop := priority y <= priority x.

(** The registry as [register_asset_class] keeps it: highest priority first,
    one class per attribute name, each name an attribute of the [MpfMc]
    object. *)
Definition registry_ok (mc : MpfMc) : Prop :=
  StronglySorted priority_ge (_asset_classes mc)
  /\ NoDup (map attribute (_asset_classes mc))
  /\ Forall (fun c => is_Some (attrs mc !! attribute c)) (_asset_classes mc).

(** [assets: images: foo: {b: 2}]: a section with no [default] entry. *)
Definition assets_no_default : gmap string (gmap string settings) :=
  {[ "images" := {[ "foo" := {[ "b" := VInt 2 ]} ]} ]}.

(** ** Further definitions used to state properties of the lifecycle *)

(** A request the loader can finish: the asset exists, and it is loaded
    already or its load primitive returns. *)
Definition completes {impl : AssetImpl} (mc : MpfMc) (r : ref) : Prop :=
  exists a, objects mc !! r = Some a
            /\ (Asset.loaded a = true \/ _do_load a = Ok tt).

(** The state [_loaded] leaves an asset in. *)
Definition is_Loaded (a : Asset.t) : Prop :=
  Asset.loaded a = true /\ Asset.loading a = false
  /\ Asset.unloading a = false /\ Asset._callbacks a = ∅.

(** Creation ids as [_get_id] hands them out: none above [_next_id], none
    shared by two objects. *)
Definition ids_ok (mc : MpfMc) : Prop :=
  (forall r a, objects mc !! r = Some a -> Asset._id a <= _next_id mc)
  /\ (forall r r' a a',
        objects mc !! r = Some a -> objects mc !! r' = Some a' ->
        Asset._id a = Asset._id a' -> r = r').

(** ** More of [AssetManager]: loading by trigger and unloading in bulk *)

(** [getattr(self.mc, attribute).values()]: the assets of one class, in the
    order they were put in. The attribute of a registered class always holds
    its asset dict. *)
Definition namespace_values (mc : MpfMc) (attr_name : string) : list ref :=
  match attrs mc !! attr_name with
  | Some (AssetDict d) => map snd d
  | _ => []
  end.

(** [[x for x in asset_objects if x.config['load'] == key_name]] *)
Fixpoint with_load_key (mc : MpfMc) (key_name : string) (asset_objects : list ref)
  : result (list ref) :=
  match asset_objects with
  | [] => Ok []
  | x :: rest =>
      match objects mc !! x with
      | Some a =>
          match getitem "load" (Asset.config a) with
          | Ok v =>
              match with_load_key mc key_name rest with
              | Ok l => Ok (if bool_decide (v = VStr key_name) then x :: l else l)
              | Raise e => Raise e
              end
          | Raise e => Raise e
          end
      | None => with_load_key mc key_name rest
      end
  end.

(** The inner loop of [load_assets_by_load_key]: [asset.load()], then
    [assets.add(asset)]. *)
Fixpoint load_each (selected : list ref) (assets : gset ref) : M MpfMc (gset ref) :=
  match selected with
  | [] => ret assets
  | asset :: rest =>
      bind (load asset None None) (fun _ => load_each rest ({[ asset ]} ∪ assets))
  end.

(** The outer loop, [for ac in self._asset_classes]. *)
Fixpoint load_by_key_in (key_name : string) (classes : list asset_class)
    (assets : gset ref) : M MpfMc (gset ref) :=
  match classes with
  | [] => ret assets
  | ac :: rest =>
      fun mc =>
        match with_load_key mc key_name (namespace_values mc (attribute ac)) with
        | Ok selected =>
            bind (load_each selected assets) (load_by_key_in key_name rest) mc
        | Raise e => (Raise e, mc)
        end
  end.

(** [AssetManager.load_assets_by_load_key] *)
Definition load_assets_by_load_key (key_name : string) (priority : Z)
  : M MpfMc (gset ref) :=
  fun mc => load_by_key_in key_name (_asset_classes mc) ∅ mc.


(** [AssetManager.unload_assets] *)
Definition unload_assets {impl : AssetImpl} (assets : list ref) : M MpfMc unit :=
  for_each assets unload.

(** What [load] and [unload] never change: the attributes of the [MpfMc]
    object, the registry, and every asset's config. *)
Definition same_catalogue (mc mc' : MpfMc) : Prop :=
  attrs mc' = attrs mc
  /\ _asset_classes mc' = _asset_classes mc
  /\ forall r, Asset.config <$> objects mc' !! r = Asset.config <$> objects mc !! r.

(** A world with the [images] class in the registry and three assets in its
    namespace: [a] and [c] load on [attract_start], [b] on [preload]. *)
Definition mc_with_mode_assets : MpfMc :=
  let mc := snd ((_ <- new_asset "a" "/machine/images/a.png"
                                 {[ "load" := VStr "attract_start" ]} ;;
                  _ <- new_asset "b" "/machine/images/b.png"
                                 {[ "load" := VStr "preload" ]} ;;
                  _ <- new_asset "c" "/machine/images/c.png"
                                 {[ "load" := VStr "attract_start";
                                    "priority" := VInt 3 ]} ;;
                  ret tt)%py (mc_with_assets None)) in
  set_attrs {[ "images" := AssetDict [("a", 0%nat); ("b", 1%nat); ("c", 2%nat)] ]}
    (set__asset_classes [Build_asset_class "images" "images" "images" [".png"] 0 ∅] mc).




(** ** More of [AssetManager]: creating the asset objects *)

(** The [file=] argument of the constructor, which the config holds as a
    string (a setting of another type is shown the way [str] shows it). *)
Definition path_of_value (v : value) : string :=
  match v with
  | VStr s => s
  | _ => str_of_value v
  end.

(** [getattr(self.mc, attribute)[asset] = r]: the attribute holds a
    [CaseInsensitiveDict], which stores its keys lower-cased. *)
Definition namespace_set (attr_name asset : string) (r : ref) (mc : MpfMc) : MpfMc :=
  match attrs mc !! attr_name with
  | Some (AssetDict d) =>
      set_attrs (<[attr_name := AssetDict (Odict.set (Str.lower asset) r d)]> (attrs mc)) mc
  | _ => mc
  end.

(** One turn of the loop [for asset in config[section]] of
    [_create_assets_from_disk]: the constructor call, whose [file=] argument
    is read first, then the store into the class's namespace. *)
Definition create_instance (ac : asset_class) (entry : string * settings)
  : M MpfMc unit :=
  fun mc =>
    match getitem "file" (snd entry) with
    | Raise e => (Raise e, mc)
    | Ok f =>
        match new_asset (fst entry) (path_of_value f) (snd entry) mc with
        | (Ok r, mc) => (Ok tt, namespace_set (attribute ac) (fst entry) r mc)
        | (Raise e, mc) => (Raise e, mc)
        end
    end.

Section CreateFromDisk.
Variable os_walk : string -> list (string * list string).

(** One turn of the loop [for ac in self._asset_classes] of
    [_create_assets_from_disk]. The state is the config dict being filled
    next to the [MpfMc] object: what was written to either before a raise
    stays written. *)
Definition create_class_assets (ac : asset_class) (mode_name : option string)
    (path : string) : M (list (string * section) * MpfMc) unit :=
  fun st =>
    let '(config, mc) := st in
    let config := match Odict.lookup (config_section ac) config with
                  | Some _ => config
                  | None => Odict.set (config_section ac) [] config
                  end in
    let sec := default [] (Odict.lookup (config_section ac) config) in
    match _create_asset_config_entries os_walk mc ac sec mode_name (Some path) with
    | (Ok entries, _) =>
        let config := Odict.set (config_section ac) entries config in
        match for_each entries (create_instance ac) mc with
        | (r, mc') => (r, (config, mc'))
        end
    | (Raise e, entries) =>
        (* an empty section was replaced by a dict of the callee's own *)
        let config := match sec with
                      | [] => config
                      | _ => Odict.set (config_section ac) entries config
                      end in
        (Raise e, (config, mc))
    end.

(** [AssetManager._create_assets_from_disk(config, mode)]; [mode] is the
    mode's name and path, if there is one. *)
Definition _create_assets_from_disk (config : list (string * section))
    (mode : option (string * string)) (mc : MpfMc)
  : result unit * (list (string * section) * MpfMc) :=
  let mode_name := fst <$> mode in
  let path := match mode with
              | Some m => snd m
              | None => machine_path mc
              end in
  for_each (_asset_classes mc)
           (fun ac => create_class_assets ac mode_name path) (config, mc).

End CreateFromDisk.


(** A world with the [images] class registered from
    [assets: images: default: {a: 1, load: preload}, foo: {b: 2}]. *)
Definition mc_images_registered : MpfMc :=
  snd (register_asset_class "images" "images" "images" [".png"] 0
                            (mc_with_assets (Some assets_a1_b2_load))).


(** * Properties *)

(** ** The string and path helpers on sample inputs *)

Example splitext_image : OsPath.splitext "Image1.png" = ("Image1", ".png").
Proof. reflexivity. Qed.
Example splitext_hidden : OsPath.splitext ".bashrc" = (".bashrc", "").
Proof. reflexivity. Qed.
Example basename_images : OsPath.basename "/machine/images/foo" = "foo".
Proof. reflexivity. Qed.
Example join_rel : OsPath.join3 "/machine" "images" "a.png" = "/machine/images/a.png".
Proof. reflexivity. Qed.
Example of_Z_neg : Str.of_Z (-12) = "-12".
Proof. reflexivity. Qed.
Example lower_mixed : Str.lower "Image1" = "image1".
Proof. reflexivity. Qed.

(** ** The monad and the ordered dict *)


Section OdictFacts.
Context {V : Type}.
Implicit Types (d : list (string * V)) (k : string) (v : V).




Lemma odict_keys_set_in d k v : k ∈ Odict.keys d -> Odict.keys (Odict.set k v d) = Odict.keys d.
Proof.
  induction d as [|[k' v'] d IH]; simpl; intros Hin.
  - inversion Hin.
  - destruct (String.eqb k k') eqn:E; simpl; [reflexivity|].
    apply elem_of_cons in Hin as [->|Hin].
    + rewrite String.eqb_refl in E. discriminate.
    + f_equal. apply IH. exact Hin.
Qed.

Lemma odict_keys_set_notin d k v :
  k ∉ Odict.keys d -> Odict.keys (Odict.set k v d) = (Odict.keys d ++ [k])%list.
Proof.
  induction d as [|[k' v'] d IH]; simpl; intros Hn; [reflexivity|].
  apply not_elem_of_cons in Hn as [Hne Hn].
  destruct (String.eqb k k') eqn:E.
  - apply String.eqb_eq in E. congruence.
  - simpl. f_equal. apply IH. exact Hn.
Qed.

Lemma odict_wf_set d k v : Odict.wf d -> Odict.wf (Odict.set k v d).
Proof.
  unfold Odict.wf. intros Hwf.
  destruct (decide (k ∈ Odict.keys d)) as [Hin|Hn].
  - rewrite odict_keys_set_in; auto.
  - rewrite odict_keys_set_notin; auto.
    apply NoDup_app. split; [exact Hwf|]. split.
    + intros x Hx Hx'. apply list_elem_of_singleton in Hx'. subst. auto.
    + apply NoDup_singleton.
Qed.




End OdictFacts.

(** ** Discovery *)

(** The loop body, case by case. *)
Lemma built_up_config_spec ac mode_name config path file_name base :
  defaults ac !! default_string ac path = Some base ->
  let name := Str.lower (fst (OsPath.splitext file_name)) in
  let resolved := match find_entry file_name name config with
                  | Some (k, _) => k
                  | None => name
                  end in
  let merged := match find_entry file_name name config with
                | Some (_, v) => dict_update base v
                | None => base
                end in
  built_up_config ac mode_name config path file_name =
  match merged !! "load" with
  | Some _ =>
      Ok (resolved,
          rewrite_load mode_name (<["file" := VStr (OsPath.join path file_name)]> merged))
  | None => Raise (KeyError "load")
  end.
Proof.
  intros Hbase name resolved merged.
  unfold built_up_config, getitem. rewrite Hbase.
  subst resolved merged. fold name.
  destruct (find_entry file_name name config) as [[k v]|];
    rewrite lookup_insert_ne by discriminate.
  - destruct (dict_update base v !! "load") as [l|] eqn:El; [|reflexivity].
    unfold rewrite_load. rewrite lookup_insert_ne by discriminate. rewrite El.
    destruct (bool_decide (l = VStr "mode_start")) eqn:Eb.
    + apply bool_decide_eq_true in Eb. subst l.
      rewrite bool_decide_eq_true_2 by reflexivity. reflexivity.
    + apply bool_decide_eq_false in Eb.
      rewrite bool_decide_eq_false_2 by congruence. reflexivity.
  - destruct (base !! "load") as [l|] eqn:El; [|reflexivity].
    unfold rewrite_load. rewrite lookup_insert_ne by discriminate. rewrite El.
    destruct (bool_decide (l = VStr "mode_start")) eqn:Eb.
    + apply bool_decide_eq_true in Eb. subst l.
      rewrite bool_decide_eq_true_2 by reflexivity. reflexivity.
    + apply bool_decide_eq_false in Eb.
      rewrite bool_decide_eq_false_2 by congruence. reflexivity.
Qed.








(** ** Name collisions *)


Lemma last_built_app x l l' :
  last_built x (l ++ l') =
  match last_built x l' with
  | Some b => Some b
  | None => last_built x l
  end.
Proof.
  induction l as [|[n b] l IH]; simpl.
  - destruct (last_built x l'); reflexivity.
  - rewrite IH. destruct (last_built x l'); reflexivity.
Qed.








(** ** Locating a file *)

(** C8: given a search root [path], [locate_asset_file] returns
    [path/path_string/file_name] if that is a file, otherwise
    [machine_path/path_string/file_name] if that is one, and otherwise raises
    (a [ValueError]) to its caller. *)
Theorem C8_locate_asset_file (os_path_isfile : string -> bool) (mc : MpfMc)
    (file_name path_string path : string) :
  path <> "" ->
  let first := OsPath.join3 path path_string file_name in
  let second := OsPath.join3 (machine_path mc) path_string file_name in
  let found := locate_asset_file os_path_isfile mc file_name path_string (Some path) in
  (os_path_isfile first = true -> found = Ok first)
  /\ (os_path_isfile first = false -> os_path_isfile second = true ->
      found = Ok second)
  /\ (os_path_isfile first = false -> os_path_isfile second = false ->
      found = Raise (ValueError ("Could not locate image '" ++ file_name ++ "'"))).
Proof.
  intros Hne first second found. subst found. unfold locate_asset_file.
  destruct (String.eqb path "") eqn:E.
  { apply String.eqb_eq in E. contradiction. }
  simpl. fold first second.
  repeat split.
  - intros ->. reflexivity.
  - intros -> ->. reflexivity.
  - intros -> ->. reflexivity.
Qed.

(** C8 on a mode folder without the file: the machine folder's copy is
    returned. *)
Lemma C8_locate_asset_file_witness :
  locate_asset_file isfile_machine_only (mc_with_assets None) "a.png" "images"
                    (Some "/machine/modes/attract")
  = Ok "/machine/images/a.png".
Proof.
  assert (Hne : "/machine/modes/attract" <> "") by discriminate.
  destruct (C8_locate_asset_file isfile_machine_only (mc_with_assets None)
              "a.png" "images" "/machine/modes/attract" Hne) as (_ & H & _).
  apply H; reflexivity.
Defined.

(** Without a search root only the machine folder is looked at. *)
Lemma locate_asset_file_no_root (os_path_isfile : string -> bool) (mc : MpfMc)
    (file_name path_string : string) :
  locate_asset_file os_path_isfile mc file_name path_string None
  = if os_path_isfile (OsPath.join3 (machine_path mc) path_string file_name)
    then Ok (OsPath.join3 (machine_path mc) path_string file_name)
    else Raise (ValueError ("Could not locate image '" ++ file_name ++ "'")).
Proof. reflexivity. Qed.

(** ** Registration *)

(** C10: registering an asset class whose section of the [assets:] block is
    present and non-empty pops that section's [default] entry out of the
    machine configuration: the entry was there before, and afterwards the
    section is what it was less [default]. *)
Theorem C10_register_pops_default
    (attribute config_section path_string : string) (extensions : list string)
    (priority : Z) (mc mc' : MpfMc)
    (assets : gmap string (gmap string settings)) (this_config : gmap string settings) :
  cfg_assets (machine_config mc) = Some assets ->
  assets !! config_section = Some this_config ->
  this_config <> ∅ ->
  register_asset_class attribute config_section path_string extensions priority mc
  = (Ok tt, mc') ->
  is_Some (this_config !! "default")
  /\ exists assets',
       cfg_assets (machine_config mc') = Some assets'
       /\ assets' !! config_section = Some (delete "default" this_config)
       /\ delete "default" this_config !! "default" = None
       /\ cfg_sections (machine_config mc') = cfg_sections (machine_config mc).
Proof.
  intros Hassets Hsec Hne Hreg.
  unfold register_asset_class in Hreg.
  destruct (attrs mc !! attribute); [discriminate|].
  cbn in Hreg. rewrite Hassets in Hreg.
  unfold _set_asset_class_defaults in Hreg. cbn in Hreg.
  rewrite bool_decide_eq_false_2 in Hreg.
  2:{ intros ->. rewrite lookup_empty in Hsec. discriminate. }
  rewrite Hsec in Hreg.
  rewrite bool_decide_eq_false_2 in Hreg by exact Hne.
  destruct (this_config !! "default") as [dflt|] eqn:Ed; [|discriminate].
  injection Hreg as <-. cbn.
  split; [eauto|].
  eexists. split; [reflexivity|].
  split; [apply lookup_insert_eq|].
  split; [apply lookup_delete_eq | reflexivity].
Qed.

(** C10 on [assets: images: default: {a: 1}, foo: {b: 2}]: after
    registration the [images] section of the shared configuration is
    [foo: {b: 2}]. *)
Lemma C10_register_pops_default_witness :
  let this_config : gmap string settings :=
    {[ "default" := {[ "a" := VInt 1 ]}; "foo" := {[ "b" := VInt 2 ]} ]} in
  let mc' := snd (register_asset_class "images" "images" "images" [".png"] 0
                    (mc_with_assets (Some assets_a1_b2))) in
  is_Some (this_config !! "default")
  /\ exists assets',
       cfg_assets (machine_config mc') = Some assets'
       /\ assets' !! "images" = Some (delete "default" this_config)
       /\ delete "default" this_config !! "default" = None
       /\ cfg_sections (machine_config mc')
          = cfg_sections (machine_config (mc_with_assets (Some assets_a1_b2))).
Proof.
  intros this_config mc'.
  apply (C10_register_pops_default "images" "images" "images" [".png"] 0
           (mc_with_assets (Some assets_a1_b2)) mc' assets_a1_b2 this_config).
  - reflexivity.
  - vm_compute. reflexivity.
  - intros H. apply (f_equal (fun m => m !! "foo")) in H. vm_compute in H. discriminate.
  - vm_compute. reflexivity.
Defined.

(** ** The asset lifecycle *)

Lemma objects_update_asset r f mc :
  objects (update_asset r f mc) !! r = f <$> objects mc !! r.
Proof. unfold update_asset. cbn. apply lookup_alter_eq. Qed.

Lemma NoDup_callables (cbs : gset callback) : NoDup (callables cbs).
Proof.
  unfold callables. generalize (NoDup_elements cbs).
  induction (elements cbs) as [|[n|] l IH]; intros Hnd; cbn.
  - apply NoDup_nil_2.
  - apply NoDup_cons in Hnd as [Hn Hnd]. apply NoDup_cons. split; [|auto].
    intros Hin. apply list_elem_of_omap in Hin as (x & Hx & Hid).
    cbn in Hid. subst x. contradiction.
  - apply NoDup_cons in Hnd as [_ Hnd]. auto.
Qed.

Lemma elem_of_callables (cbs : gset callback) n : n ∈ callables cbs <-> Some n ∈ cbs.
Proof.
  unfold callables. rewrite list_elem_of_omap. split.
  - intros (x & Hx & Hid). cbn in Hid. subst x. apply elem_of_elements. exact Hx.
  - intros H. exists (Some n). split; [apply elem_of_elements; exact H | reflexivity].
Qed.

(** C6: when the unload primitive returns, [unload] returns with the
    asset's [loaded], [loading] and [unloading] flags all false, the primitive
    invoked exactly once, and both queues, both counters and the clock
    untouched. *)
Theorem C6_unload_synchronous {impl : AssetImpl} (mc : MpfMc) (self : ref) (a : Asset.t) :
  objects mc !! self = Some a ->
  _do_unload (Asset.set_loading false (Asset.set_loaded false
                (Asset.set_unloading true a))) = Ok tt ->
  exists mc' a',
    unload self mc = (Ok tt, mc')
    /\ objects mc' !! self = Some a'
    /\ Asset.loaded a' = false /\ Asset.loading a' = false
    /\ Asset.unloading a' = false
    /\ trace mc' = (trace mc ++ [DoUnload self])%list
    /\ loader_queue mc' = loader_queue mc
    /\ loaded_queue mc' = loaded_queue mc
    /\ num_assets_to_load mc' = num_assets_to_load mc
    /\ num_assets_loaded mc' = num_assets_loaded mc
    /\ _loaded_watcher mc' = _loaded_watcher mc
    /\ clock mc' = clock mc.
Proof.
  intros Hobj Hprim. unfold unload.
  rewrite !objects_update_asset, Hobj. cbn [fmap option_fmap option_map].
  rewrite Hprim.
  eexists. eexists. split; [reflexivity|].
  split.
  { rewrite objects_update_asset. cbn [objects set_trace].
    rewrite !objects_update_asset, Hobj. reflexivity. }
  cbn. repeat split; reflexivity.
Qed.

(** C6 on a loaded asset of a class whose primitives succeed. *)
Lemma C6_unload_synchronous_witness :
  exists mc' a',
    unload (impl := AssetClass_ok) 0%nat mc_one_loaded = (Ok tt, mc')
    /\ objects mc' !! 0%nat = Some a'
    /\ Asset.loaded a' = false /\ Asset.loading a' = false
    /\ Asset.unloading a' = false
    /\ trace mc' = (trace mc_one_loaded ++ [DoUnload 0%nat])%list
    /\ loader_queue mc' = loader_queue mc_one_loaded
    /\ loaded_queue mc' = loaded_queue mc_one_loaded
    /\ num_assets_to_load mc' = num_assets_to_load mc_one_loaded
    /\ num_assets_loaded mc' = num_assets_loaded mc_one_loaded
    /\ _loaded_watcher mc' = _loaded_watcher mc_one_loaded
    /\ clock mc' = clock mc_one_loaded.
Proof.
  apply (C6_unload_synchronous (impl := AssetClass_ok) mc_one_loaded 0%nat
           (Asset.set__callbacks {[ Some 7%nat ]}
              (Asset.set_loaded true (fresh_asset "a" 1 (VInt 0))))).
  - vm_compute. reflexivity.
  - reflexivity.
Defined.

(** When the unload primitive raises, [unload] raises with it and the asset
    is left marked as unloading. *)
Lemma unload_raises {impl : AssetImpl} (mc : MpfMc) (self : ref) (a : Asset.t) e :
  objects mc !! self = Some a ->
  _do_unload (Asset.set_loading false (Asset.set_loaded false
                (Asset.set_unloading true a))) = Raise e ->
  exists mc', unload self mc = (Raise e, mc')
    /\ Asset.unloading <$> objects mc' !! self = Some true.
Proof.
  intros Hobj Hprim. unfold unload.
  rewrite !objects_update_asset, Hobj. cbn [fmap option_fmap option_map].
  rewrite Hprim. eexists. split; [reflexivity|].
  cbn [objects set_trace]. rewrite !objects_update_asset, Hobj. reflexivity.
Qed.

(** C4: [load(callback)] on a loaded asset returns after calling every
    callable of the pending set, the one just supplied included, each exactly
    once; it leaves the pending set empty and touches neither queue, neither
    counter, nor the clock. *)
Theorem C4_load_when_loaded (mc : MpfMc) (self : ref) (a : Asset.t)
    (cb : callback) (prio : option value) :
  objects mc !! self = Some a ->
  Asset.loaded a = true ->
  let pending : gset callback := {[ cb ]} ∪ Asset._callbacks a in
  exists mc',
    load self cb prio mc = (Ok tt, mc')
    /\ trace mc' = (trace mc ++ map Called (callables pending))%list
    /\ (forall n, n ∈ callables pending <-> Some n ∈ pending)
    /\ NoDup (callables pending)
    /\ Asset._callbacks <$> objects mc' !! self = Some ∅
    /\ Asset.loaded <$> objects mc' !! self = Some true
    /\ loader_queue mc' = loader_queue mc
    /\ loaded_queue mc' = loaded_queue mc
    /\ num_assets_to_load mc' = num_assets_to_load mc
    /\ num_assets_loaded mc' = num_assets_loaded mc
    /\ _loaded_watcher mc' = _loaded_watcher mc
    /\ clock mc' = clock mc.
Proof.
  intros Hobj Hloaded pending. unfold load.
  set (mc1 := match prio with
              | Some p => update_asset self (Asset.set_priority p) mc
              | None => mc
              end).
  assert (H1 : exists a1, objects mc1 !! self = Some a1
                 /\ Asset.loaded a1 = true
                 /\ Asset._callbacks a1 = Asset._callbacks a).
  { subst mc1. destruct prio as [p|].
    - rewrite objects_update_asset, Hobj. eexists. split; [reflexivity|]. cbn. auto.
    - exists a. auto. }
  destruct H1 as (a1 & Hobj1 & Hl1 & Hcb1).
  assert (Hframe : trace mc1 = trace mc /\ loader_queue mc1 = loader_queue mc
                   /\ loaded_queue mc1 = loaded_queue mc
                   /\ num_assets_to_load mc1 = num_assets_to_load mc
                   /\ num_assets_loaded mc1 = num_assets_loaded mc
                   /\ _loaded_watcher mc1 = _loaded_watcher mc
                   /\ clock mc1 = clock mc).
  { subst mc1. destruct prio; cbn; repeat split; reflexivity. }
  destruct Hframe as (Ht & Hq & Hlq & Hn1 & Hn2 & Hw & Hc).
  rewrite objects_update_asset, Hobj1. cbn [fmap option_fmap option_map].
  cbn [Asset.loaded Asset.set__callbacks]. rewrite Hl1.
  unfold _call_callbacks. rewrite objects_update_asset, Hobj1.
  cbn [fmap option_fmap option_map Asset._callbacks Asset.set__callbacks].
  rewrite Hcb1. fold pending.
  eexists. split; [reflexivity|].
  split; [cbn; rewrite Ht; reflexivity|].
  split; [intros n; apply elem_of_callables|].
  split; [apply NoDup_callables|].
  split.
  { rewrite objects_update_asset. cbn [objects set_trace].
    rewrite objects_update_asset, Hobj1. reflexivity. }
  split.
  { rewrite objects_update_asset. cbn [objects set_trace].
    rewrite objects_update_asset, Hobj1. cbn. rewrite Hl1. reflexivity. }
  cbn. auto 10.
Qed.

(** C4 on a loaded asset with callable [7] pending, handed callable [8]:
    both are called, and nothing is enqueued. *)
Lemma C4_load_when_loaded_witness :
  exists mc',
    load 0%nat (Some 8%nat) None mc_one_loaded = (Ok tt, mc')
    /\ Permutation (trace mc') [Called 7%nat; Called 8%nat]
    /\ loader_queue mc' = []
    /\ num_assets_to_load mc' = 0.
Proof.
  destruct (C4_load_when_loaded mc_one_loaded 0%nat
              (Asset.set__callbacks {[ Some 7%nat ]}
                 (Asset.set_loaded true (fresh_asset "a" 1 (VInt 0))))
              (Some 8%nat) None)
    as (mc' & Hrun & Htrace & _ & _ & _ & _ & Hq & _ & Hn & _).
  - vm_compute. reflexivity.
  - reflexivity.
  - exists mc'. split; [exact Hrun|]. split; [|split].
    + rewrite Htrace. vm_compute.
      first [ apply Permutation_refl | apply perm_swap ].
    + rewrite Hq. reflexivity.
    + rewrite Hn. reflexivity.
Defined.

(** ** The loader queue and the loader thread *)

(** C1, on the code: three requests of equal priority that sit in the queue
    together are dequeued newest first (ids 3, 2, 1), not in the order they
    were submitted; and a request of priority 9 is dequeued before one of
    priority 10. Both come from [__lt__] comparing the text
    [priority, id] instead of the numbers. *)
Theorem C1_dequeue_order_follows_text :
  map (id_and_priority mc_three_queued) (dequeue_order 3 mc_three_queued)
  = [Some (3, VInt 0); Some (2, VInt 0); Some (1, VInt 0)]
  /\ map (id_and_priority mc_ten_nine_queued) (dequeue_order 2 mc_ten_nine_queued)
     = [Some (2, VInt 9); Some (1, VInt 10)].
Proof. split; vm_compute; reflexivity. Qed.

(** [__lt__] is the order of the keys as text. *)
Lemma lt_is_text_order (x y : Asset.t) :
  __lt__ x y = String.ltb (sort_key y) (sort_key x).
Proof. reflexivity. Qed.

(** C2, as stated, fails: when the load primitive raises (here the base
    class's [NotImplementedError]) the dequeued asset is not published to the
    completion queue; the fault goes to the crash queue and the thread
    ends. *)
Lemma C2_raise_is_not_published :
  exists mc',
    run_turn (impl := AssetClass_base) mc_one_queued = Crashed mc'
    /\ dequeue_order 1 mc_one_queued = [0%nat]
    /\ loaded_queue mc' = []
    /\ crash_queue mc' = [format_exception NotImplementedError]
    /\ run (impl := AssetClass_base) 5 mc_one_queued = mc'.
Proof. eexists. vm_compute. repeat split; reflexivity. Qed.

(** C2 (amended): for every request the loader dequeues, if the asset is
    already loaded or the load primitive returns, the asset is appended to the
    completion queue once and nothing goes to the crash queue; if the
    primitive raises, the asset is not published, the formatted exception is
    appended to the crash queue, and the thread ends. *)
Theorem C2_turn_publishes_or_crashes {impl : AssetImpl} (mc : MpfMc)
    (asset : ref) (q' : list ref) (a : Asset.t) :
  heappop (ref_lt mc) (loader_queue mc) = Some (asset, q') ->
  objects mc !! asset = Some a ->
  (Asset.loaded a = true \/ _do_load a = Ok tt ->
   exists mc',
     run_turn mc = Continue mc'
     /\ loaded_queue mc' = (loaded_queue mc ++ [asset])%list
     /\ crash_queue mc' = crash_queue mc
     /\ loader_queue mc' = q'
     /\ loader_alive mc' = loader_alive mc)
  /\ (forall e, Asset.loaded a = false -> _do_load a = Raise e ->
      exists mc',
        run_turn mc = Crashed mc'
        /\ loaded_queue mc' = loaded_queue mc
        /\ crash_queue mc' = (crash_queue mc ++ [format_exception e])%list
        /\ loader_queue mc' = q'
        /\ loader_alive mc' = false).
Proof.
  intros Hpop Hobj. unfold run_turn. rewrite Hpop. cbn [objects set_loader_queue].
  rewrite Hobj. unfold load_if_needed. split.
  - intros Hok. destruct (Asset.loaded a) eqn:El; cbn [negb].
    + eexists. split; [reflexivity|]. cbn. auto.
    + destruct Hok as [Hok|Hok]; [discriminate|]. rewrite Hok.
      eexists. split; [reflexivity|]. cbn. auto.
  - intros e El He. rewrite El. cbn [negb]. rewrite He.
    eexists. split; [reflexivity|]. cbn. auto.
Qed.

(** The amended C2 on the two outcomes of one queued request: published when
    the primitive returns, sent to the crash queue when it raises. *)
Lemma C2_turn_publishes_or_crashes_witness :
  (exists mc',
     run_turn (impl := AssetClass_ok) mc_one_queued = Continue mc'
     /\ loaded_queue mc' = [0%nat] /\ crash_queue mc' = [])
  /\ (exists mc',
        run_turn (impl := AssetClass_base) mc_one_queued = Crashed mc'
        /\ loaded_queue mc' = []
        /\ crash_queue mc' = [format_exception NotImplementedError]).
Proof.
  assert (Hpop : heappop (ref_lt mc_one_queued) (loader_queue mc_one_queued)
                 = Some (0%nat, [])) by (vm_compute; reflexivity).
  assert (Hobj : objects mc_one_queued !! 0%nat
                 = Some (Asset.set_loading true
                           (Asset.set__callbacks {[ Some 7%nat ]}
                              (fresh_asset "a" 1 (VInt 0)))))
    by (vm_compute; reflexivity).
  split.
  - destruct (C2_turn_publishes_or_crashes (impl := AssetClass_ok)
                mc_one_queued 0%nat [] _ Hpop Hobj) as [H _].
    destruct H as (mc' & Hrun & Hq & Hc & _); [right; reflexivity|].
    exists mc'. split; [exact Hrun|]. split; [rewrite Hq | rewrite Hc]; reflexivity.
  - destruct (C2_turn_publishes_or_crashes (impl := AssetClass_base)
                mc_one_queued 0%nat [] _ Hpop Hobj) as [_ H].
    destruct (H NotImplementedError) as (mc' & Hrun & Hq & Hc & _);
      [reflexivity | reflexivity |].
    exists mc'. split; [exact Hrun|]. split; [rewrite Hq | rewrite Hc]; reflexivity.
Defined.

(** ** The progress counters *)

(** [_loaded] changes the asset and the trace, and nothing of the manager. *)
Lemma loaded_frame (asset : ref) (mc : MpfMc) :
  exists mc',
    _loaded asset mc = (Ok tt, mc')
    /\ num_assets_to_load mc' = num_assets_to_load mc
    /\ num_assets_loaded mc' = num_assets_loaded mc
    /\ loaded_queue mc' = loaded_queue mc
    /\ _loaded_watcher mc' = _loaded_watcher mc
    /\ clock mc' = clock mc.
Proof.
  unfold _loaded, _call_callbacks.
  match goal with |- context [match ?o with Some _ => _ | None => _ end] =>
    destruct o end;
    (eexists; split; [reflexivity|]; cbn; repeat split; reflexivity).
Qed.

(** The drain loop counts every queued completion and empties the queue. *)
Lemma drain_loaded_queue_spec (q : list ref) :
  forall mc,
  loaded_queue mc = q ->
  exists mc',
    drain_loaded_queue q mc = (Ok tt, mc')
    /\ num_assets_to_load mc' = num_assets_to_load mc
    /\ num_assets_loaded mc' = num_assets_loaded mc + Z.of_nat (length q)
    /\ loaded_queue mc' = []
    /\ _loaded_watcher mc' = _loaded_watcher mc
    /\ clock mc' = clock mc.
Proof.
  induction q as [|asset q IH]; intros mc Hq.
  - exists mc. cbn. rewrite Z.add_0_r. repeat split; auto.
  - cbn [drain_loaded_queue].
    destruct (loaded_frame asset (set_loaded_queue q mc))
      as (mc1 & Hrun & Ht & Hl & Hlq & Hw & Hc).
    rewrite Hrun.
    destruct (IH (set_num_assets_loaded (num_assets_loaded mc1 + 1) mc1))
      as (mc2 & Hrun2 & Ht2 & Hl2 & Hlq2 & Hw2 & Hc2).
    { cbn. rewrite Hlq. reflexivity. }
    exists mc2. split; [exact Hrun2|].
    rewrite Ht2, Hl2, Hlq2, Hw2, Hc2. cbn. rewrite Ht, Hl, Hw, Hc. cbn.
    repeat split; try reflexivity. lia.
Qed.

Lemma check_event_filtered (l : list clock_event) :
  check_loader_status_event ∉ filter (fun e => e <> check_loader_status_event) l.
Proof. intros H. apply list_elem_of_filter in H as [H _]. apply H. reflexivity. Qed.

(** Every step keeps [counters_inv]. *)
Lemma perform_keeps_inv (act : action) (mc : MpfMc) (r p : nat) :
  counters_inv mc r p ->
  causal_from r p [act] = true ->
  exists mc',
    perform act mc = (Ok tt, mc')
    /\ counters_inv mc' (if is_request act then S r else r)
                        (if is_publish act then S p else p).
Proof.
  intros (Heq & Hle & Hst) Hc. destruct act as [asset|asset|]; cbn [perform is_request is_publish].
  - (* Request *)
    unfold _load_asset.
    destruct Hst as [(Hlt & H0 & Hw & Hin)|(Ht & Hl & Hw & Hnin)].
    + cbn. rewrite Hw. cbn. eexists. split; [reflexivity|].
      unfold counters_inv. cbn. split; [lia|]. split; [lia|].
      left. repeat split; auto; lia.
    + cbn. rewrite Hw. cbn. eexists. split; [reflexivity|].
      unfold counters_inv. cbn. split; [lia|]. split; [lia|].
      left. repeat split; try lia.
      apply elem_of_app. right. apply list_elem_of_singleton. reflexivity.
  - (* Publish *)
    cbn [causal_from] in Hc. apply andb_true_iff in Hc as [Hc _]. apply Nat.leb_le in Hc.
    unfold modify. eexists. split; [reflexivity|].
    unfold counters_inv. cbn. rewrite length_app. cbn.
    split; [lia|]. split; [lia|].
    destruct Hst as [(Hlt & H0 & Hw & Hin)|(Ht & Hl & Hw & Hnin)].
    + left. auto.
    + exfalso. cbn in Heq. lia.
  - (* Tick *)
    unfold clock_tick.
    destruct Hst as [(Hlt & H0 & Hw & Hin)|(Ht & Hl & Hw & Hnin)].
    + rewrite bool_decide_eq_true_2 by exact Hin.
      unfold _check_loader_status.
      destruct (drain_loaded_queue_spec (loaded_queue mc) mc eq_refl)
        as (mc1 & Hrun & Ht1 & Hl1 & Hlq1 & Hw1 & Hc1).
      rewrite Hrun.
      destruct (num_assets_to_load mc1 =? num_assets_loaded mc1) eqn:E.
      * apply Z.eqb_eq in E. eexists. split; [reflexivity|].
        unfold counters_inv. cbn. rewrite Hlq1. cbn.
        split; [cbn in Heq; lia|]. split; [lia|].
        right. repeat split; auto. apply check_event_filtered.
      * apply Z.eqb_neq in E. eexists. split; [reflexivity|].
        unfold counters_inv. rewrite Hlq1. cbn.
        split; [cbn in Heq; lia|]. split; [lia|].
        left. rewrite Hw1, Hc1. repeat split; auto; cbn in Heq; lia.
    + rewrite bool_decide_eq_false_2 by exact Hnin.
      eexists. split; [reflexivity|].
      unfold counters_inv. split; [exact Heq|]. split; [lia|]. right. auto.
Qed.

Lemma run_keeps_inv (acts : list action) :
  forall (mc : MpfMc) (r p : nat),
  counters_inv mc r p ->
  causal_from r p acts = true ->
  exists mc',
    for_each acts perform mc = (Ok tt, mc')
    /\ counters_inv mc' (r + requests acts) (p + publishes acts).
Proof.
  induction acts as [|act acts IH]; intros mc r p Hinv Hc.
  - exists mc. cbn. rewrite !Nat.add_0_r. auto.
  - assert (Hc1 : causal_from r p [act] = true).
    { destruct act; cbn [causal_from] in *; auto.
      apply andb_true_iff in Hc as [Hc _]. rewrite Hc. reflexivity. }
    destruct (perform_keeps_inv act mc r p Hinv Hc1) as (mc1 & Hrun & Hinv1).
    assert (Hc2 : causal_from (if is_request act then S r else r)
                              (if is_publish act then S p else p) acts = true).
    { destruct act; cbn [causal_from is_request is_publish] in *; auto.
      apply andb_true_iff in Hc as [_ Hc]. exact Hc. }
    destruct (IH mc1 _ _ Hinv1 Hc2) as (mc2 & Hrun2 & Hinv2).
    exists mc2. split.
    + cbn [for_each]. unfold bind. rewrite Hrun. exact Hrun2.
    + unfold requests, publishes in *.
      destruct act; cbn [List.filter is_request is_publish length] in *;
        rewrite ?Nat.add_succ_r; exact Hinv2.
Qed.

(** C5: start idle, and let requests, completions and poll ticks come in any
    order in which the loader only completes what was requested. If
    [num_assets_to_load] was incremented [N > 0] times, then once [N]
    completions have been published and the poll has drained them all, both
    counters are zero and the poll is unscheduled, with [_loaded_watcher]
    cleared so that the next request schedules it again. *)
Theorem C5_batch_resets_counters (mc : MpfMc) (acts : list action) (N : nat) :
  num_assets_to_load mc = 0 ->
  num_assets_loaded mc = 0 ->
  loaded_queue mc = [] ->
  _loaded_watcher mc = false ->
  check_loader_status_event ∉ clock mc ->
  causal acts = true ->
  requests acts = N ->
  (0 < N)%nat ->
  publishes acts = N ->
  exists mc',
    for_each acts perform mc = (Ok tt, mc')
    /\ (loaded_queue mc' = [] ->
        num_assets_to_load mc' = 0
        /\ num_assets_loaded mc' = 0
        /\ _loaded_watcher mc' = false
        /\ check_loader_status_event ∉ clock mc').
Proof.
  intros Ht Hl Hq Hw Hc Hcausal Hreq Hpos Hpub.
  assert (Hinv : counters_inv mc 0 0).
  { unfold counters_inv. rewrite Ht, Hl, Hq. cbn. split; [reflexivity|].
    split; [lia|]. right. auto. }
  destruct (run_keeps_inv acts mc 0 0 Hinv Hcausal) as (mc' & Hrun & Hinv').
  exists mc'. split; [exact Hrun|]. intros Hempty.
  destruct Hinv' as (Heq & _ & Hst). rewrite Hempty, Hreq, Hpub in Heq. cbn in Heq.
  destruct Hst as [(Hlt & _)|Hidle]; [lia | exact Hidle].
Qed.

(** C5 on a batch of two requests whose completions are polled one at a
    time. *)
Lemma C5_batch_resets_counters_witness :
  exists mc',
    for_each batch_of_two perform mc_two_created = (Ok tt, mc')
    /\ loaded_queue mc' = []
    /\ num_assets_to_load mc' = 0
    /\ num_assets_loaded mc' = 0
    /\ _loaded_watcher mc' = false
    /\ check_loader_status_event ∉ clock mc'.
Proof.
  destruct (C5_batch_resets_counters mc_two_created batch_of_two 2)
    as (mc' & Hrun & Hdone).
  - reflexivity.
  - reflexivity.
  - reflexivity.
  - reflexivity.
  - vm_compute. apply not_elem_of_nil.
  - reflexivity.
  - reflexivity.
  - lia.
  - reflexivity.
  - assert (Hempty : loaded_queue mc' = []).
    { assert (H : snd (for_each batch_of_two perform mc_two_created) = mc')
        by (rewrite Hrun; reflexivity).
      rewrite <- H. vm_compute. reflexivity. }
    exists mc'. split; [exact Hrun|]. split; [exact Hempty|]. exact (Hdone Hempty).
Defined.

(** Half way through that batch the counters stand at 1 of 2 and the poll
    stays scheduled. *)
Example C5_mid_batch :
  let mc' := snd (for_each [Request 0%nat; Request 1%nat; Publish 0%nat; Tick]
                           perform mc_two_created) in
  (num_assets_loaded mc', num_assets_to_load mc', _loaded_watcher mc') = (1, 2, true).
Proof. vm_compute. reflexivity. Qed.

(** * Further properties of the code *)

(** ** The registry *)

Lemma insert_by_priority_perm x l : insert_by_priority x l ≡ₚ x :: l.
Proof.
  induction l as [|y l IH]; cbn; [reflexivity|].
  destruct (priority x <? priority y); [|reflexivity].
  rewrite IH. apply perm_swap.
Qed.

Lemma sort_by_priority_perm l : sort_by_priority l ≡ₚ l.
Proof.
  induction l as [|x l IH]; cbn; [reflexivity|].
  rewrite insert_by_priority_perm. rewrite IH. reflexivity.
Qed.

Lemma insert_by_priority_sorted x l :
  StronglySorted priority_ge l -> StronglySorted priority_ge (insert_by_priority x l).
Proof.
  induction l as [|y l IH]; intros Hs; cbn.
  - repeat constructor.
  - apply StronglySorted_cons in Hs as [Hy Hs].
    destruct (priority x <? priority y) eqn:E.
    + apply Z.ltb_lt in E. apply StronglySorted_cons. split; [|auto].
      rewrite insert_by_priority_perm. constructor; [unfold priority_ge; lia | exact Hy].
    + apply Z.ltb_ge in E. apply StronglySorted_cons. split.
      * constructor; [exact E|].
        eapply Forall_impl; [exact Hy|]. unfold priority_ge. intros z Hz. cbn in *. lia.
      * apply StronglySorted_cons. auto.
Qed.

Lemma sort_by_priority_sorted l : StronglySorted priority_ge (sort_by_priority l).
Proof.
  induction l as [|x l IH]; cbn; [constructor|].
  apply insert_by_priority_sorted. exact IH.
Qed.

Lemma store_defaults_attribute a d l :
  map attribute (store_defaults a d l) = map attribute l.
Proof.
  unfold store_defaults. rewrite map_map. apply map_ext.
  intros c. destruct (String.eqb (attribute c) a); reflexivity.
Qed.

Lemma store_defaults_priority a d l :
  map priority (store_defaults a d l) = map priority l.
Proof.
  unfold store_defaults. rewrite map_map. apply map_ext.
  intros c. destruct (String.eqb (attribute c) a); reflexivity.
Qed.

Lemma sorted_iff_priorities l :
  StronglySorted priority_ge l <-> StronglySorted (fun a b => b <= a) (map priority l).
Proof.
  induction l as [|x l IH]; cbn.
  - split; constructor.
  - rewrite !StronglySorted_cons, IH.
    change (map priority l) with (priority <$> l). rewrite Forall_fmap.
    reflexivity.
Qed.

Lemma sorted_by_priorities l l' :
  map priority l = map priority l' ->
  StronglySorted priority_ge l -> StronglySorted priority_ge l'.
Proof. intros Hm. rewrite !sorted_iff_priorities, Hm. auto. Qed.

Lemma registry_ok_after (mc mc' : MpfMc) (attr_name : string) (ac : asset_class) :
  registry_ok mc ->
  attrs mc !! attr_name = None ->
  attribute ac = attr_name ->
  attrs mc' = <[attr_name := AssetDict []]> (attrs mc) ->
  map attribute (_asset_classes mc')
    = map attribute (sort_by_priority (_asset_classes mc ++ [ac])) ->
  map priority (_asset_classes mc')
    = map priority (sort_by_priority (_asset_classes mc ++ [ac])) ->
  registry_ok mc'.
Proof.
  intros (Hs & Hnd & Hattr) Hnone Hac Hattrs Hma Hmp.
  assert (Hperm : map attribute (_asset_classes mc')
                  ≡ₚ (map attribute (_asset_classes mc) ++ [attr_name])%list).
  { rewrite Hma. change (attribute <$> sort_by_priority (_asset_classes mc ++ [ac])
                         ≡ₚ (attribute <$> _asset_classes mc) ++ [attr_name]).
    rewrite sort_by_priority_perm, fmap_app. cbn. rewrite Hac. reflexivity. }
  assert (Hfresh : attr_name ∉ map attribute (_asset_classes mc)).
  { intros Hin. change (attr_name ∈ attribute <$> _asset_classes mc) in Hin.
    apply list_elem_of_fmap in Hin as (c & -> & Hc).
    rewrite Forall_forall in Hattr. destruct (Hattr c Hc) as [v Hv]. congruence. }
  split; [|split].
  - eapply sorted_by_priorities; [symmetry; exact Hmp | apply sort_by_priority_sorted].
  - rewrite Hperm. apply NoDup_app. split; [exact Hnd|]. split.
    + intros x Hx Hx'. apply list_elem_of_singleton in Hx'. subst. contradiction.
    + apply NoDup_singleton.
  - apply Forall_forall. intros c Hc. rewrite Hattrs.
    assert (Hin : attribute c ∈ (map attribute (_asset_classes mc) ++ [attr_name])%list).
    { rewrite <- Hperm. change (attribute c ∈ attribute <$> _asset_classes mc').
      apply list_elem_of_fmap. eauto. }
    apply elem_of_app in Hin as [Hin|Hin].
    + change (attribute c ∈ attribute <$> _asset_classes mc) in Hin.
      apply list_elem_of_fmap in Hin as (c0 & Heq & Hc0).
      rewrite Forall_forall in Hattr. destruct (Hattr c0 Hc0) as [v Hv].
      rewrite Heq. destruct (decide (attr_name = attribute c0)) as [<-|Hne].
      * rewrite lookup_insert_eq. eauto.
      * rewrite lookup_insert_ne by exact Hne. eauto.
    + apply list_elem_of_singleton in Hin. rewrite Hin, lookup_insert_eq. eauto.
Qed.

(** X1: whatever its outcome, [register_asset_class] keeps the registry in
    order: highest priority first, one class per attribute name, every name an
    attribute of the [MpfMc] object. *)
Theorem register_keeps_registry_ok
    (attr_name section_name folder_name : string) (exts : list string)
    (prio : Z) (mc : MpfMc) :
  registry_ok mc ->
  registry_ok (snd (register_asset_class attr_name section_name folder_name
                                         exts prio mc)).
Proof.
  intros Hok. unfold register_asset_class.
  destruct (attrs mc !! attr_name) eqn:Ea; [exact Hok|].
  set (ac := Build_asset_class attr_name folder_name section_name exts prio ∅).
  cbn [machine_config set__asset_classes set_attrs].
  destruct (_set_asset_class_defaults ac (cfg_assets (machine_config mc)))
    as [[d|e] assets'].
  - cbn [snd]. eapply (registry_ok_after mc _ attr_name ac Hok Ea eq_refl).
    + reflexivity.
    + cbn. apply store_defaults_attribute.
    + cbn. apply store_defaults_priority.
  - cbn [snd]. eapply (registry_ok_after mc _ attr_name ac Hok Ea eq_refl);
      reflexivity.
Qed.

(** X1 on an empty registry. *)
Lemma register_keeps_registry_ok_witness :
  registry_ok (snd (register_asset_class "images" "images" "images" [".png"] 0
                                         (mc_with_assets (Some assets_a1_b2)))).
Proof.
  apply register_keeps_registry_ok.
  split; [constructor | split; [apply NoDup_nil_2 | constructor]].
Defined.

Lemma insert_by_priority_head y l :
  Forall (priority_ge y) l -> insert_by_priority y l = y :: l.
Proof.
  destruct l as [|z l]; cbn; [reflexivity|]. intros H.
  apply Forall_cons in H as [Hz _]. unfold priority_ge in Hz.
  destruct (priority y <? priority z) eqn:E; [|reflexivity].
  apply Z.ltb_lt in E. lia.
Qed.

Lemma insert_new_class_position x l :
  StronglySorted priority_ge l ->
  exists l1 l2,
    l = (l1 ++ l2)%list
    /\ foldr insert_by_priority [x] l = (l1 ++ x :: l2)%list
    /\ Forall (fun c => priority x <= priority c) l1
    /\ Forall (fun c => priority c < priority x) l2.
Proof.
  induction l as [|y l IH]; intros Hs.
  - exists [], []. cbn. repeat split; constructor.
  - apply StronglySorted_cons in Hs as [Hy Hs].
    destruct (IH Hs) as (l1 & l2 & Hl & Hf & H1 & H2).
    cbn [foldr]. rewrite Hf. subst l. apply Forall_app in Hy as [Hy1 Hy2].
    destruct l1 as [|z l1].
    + cbn. destruct (priority y <? priority x) eqn:E.
      * apply Z.ltb_lt in E. exists [], (y :: l2). cbn.
        rewrite insert_by_priority_head by exact Hy2.
        repeat split; [constructor | constructor; assumption].
      * apply Z.ltb_ge in E. exists [y], l2. cbn.
        repeat split; [constructor; [exact E | constructor] | exact H2].
    + exists (y :: z :: l1), l2.
      apply Forall_cons in Hy1 as [Hz Hy1]. unfold priority_ge in Hz.
      apply Forall_cons in H1 as [Hxz H1].
      cbn. destruct (priority y <? priority z) eqn:E.
      { apply Z.ltb_lt in E. lia. }
      repeat split; [|exact H2].
      constructor; [lia|]. constructor; assumption.
Qed.

(** X2: in a registry that is in priority order, a newly registered class goes
    behind every class of higher or equal priority and ahead of every class of
    lower priority: among equal priorities the registration order is kept. *)
Theorem register_position
    (attr_name section_name folder_name : string) (exts : list string)
    (prio : Z) (mc : MpfMc) :
  StronglySorted priority_ge (_asset_classes mc) ->
  attrs mc !! attr_name = None ->
  let mc' := snd (register_asset_class attr_name section_name folder_name
                                       exts prio mc) in
  exists l1 l2,
    _asset_classes mc = (l1 ++ l2)%list
    /\ map attribute (_asset_classes mc')
       = (map attribute l1 ++ attr_name :: map attribute l2)%list
    /\ Forall (fun c => prio <= priority c) l1
    /\ Forall (fun c => priority c < prio) l2.
Proof.
  intros Hs Hnone mc'.
  set (ac := Build_asset_class attr_name folder_name section_name exts prio ∅).
  destruct (insert_new_class_position ac _ Hs) as (l1 & l2 & Hl & Hf & H1 & H2).
  exists l1, l2. split; [exact Hl|]. split; [|split; assumption].
  assert (Hsort : sort_by_priority (_asset_classes mc ++ [ac]) = (l1 ++ ac :: l2)%list).
  { unfold sort_by_priority. rewrite foldr_app. exact Hf. }
  subst mc'. unfold register_asset_class. rewrite Hnone.
  cbn [machine_config set__asset_classes set_attrs]. fold ac.
  destruct (_set_asset_class_defaults ac (cfg_assets (machine_config mc)))
    as [[d|e] assets']; cbn -[sort_by_priority store_defaults].
  - rewrite store_defaults_attribute. fold ac. rewrite Hsort, map_app. reflexivity.
  - fold ac. rewrite Hsort, map_app. reflexivity.
Qed.

(** X2 on a registry holding [sounds] at priority 0: [images], registered
    at the same priority, goes behind it. *)
Lemma register_position_witness :
  let mc := snd (register_asset_class "sounds" "sounds" "sounds" [".wav"] 0
                                      (mc_with_assets None)) in
  let mc' := snd (register_asset_class "images" "images" "images" [".png"] 0 mc) in
  map attribute (_asset_classes mc') = ["sounds"; "images"]
  /\ exists l1 l2,
       _asset_classes mc = (l1 ++ l2)%list
       /\ map attribute (_asset_classes mc')
          = (map attribute l1 ++ "images" :: map attribute l2)%list
       /\ Forall (fun c => 0 <= priority c) l1
       /\ Forall (fun c => priority c < 0) l2.
Proof.
  intros mc mc'. split; [vm_compute; reflexivity|].
  apply (register_position "images" "images" "images" [".png"] 0 mc).
  - vm_compute. repeat constructor.
  - vm_compute. reflexivity.
Defined.

(** X3: once a class is registered under an attribute name, registering any
    class under that name again raises [ValueError] and changes nothing. *)
Theorem register_twice_rejected
    (attr_name section_name folder_name section_name' folder_name' : string)
    (exts exts' : list string) (prio prio' : Z) (mc mc1 : MpfMc) :
  register_asset_class attr_name section_name folder_name exts prio mc = (Ok tt, mc1) ->
  register_asset_class attr_name section_name' folder_name' exts' prio' mc1
  = (Raise (ValueError ("Cannot set self.mc." ++ attr_name ++ " as it already exists.")),
     mc1).
Proof.
  intros Hreg. unfold register_asset_class in Hreg.
  destruct (attrs mc !! attr_name); [discriminate|].
  cbn [machine_config set__asset_classes set_attrs] in Hreg.
  destruct (_set_asset_class_defaults _ _) as [[d|e] assets']; [|discriminate].
  injection Hreg as <-.
  unfold register_asset_class. cbn [attrs set__asset_classes set_machine_config set_attrs].
  rewrite lookup_insert_eq. reflexivity.
Qed.

(** X3 on the [images] class. *)
Lemma register_twice_rejected_witness :
  let mc1 := snd (register_asset_class "images" "images" "images" [".png"] 0
                                       (mc_with_assets (Some assets_a1_b2))) in
  register_asset_class "images" "pictures" "pics" [".jpg"] 5 mc1
  = (Raise (ValueError "Cannot set self.mc.images as it already exists."), mc1).
Proof.
  intros mc1.
  apply (register_twice_rejected "images" "images" "images" "pictures" "pics"
           [".png"] [".jpg"] 0 5 (mc_with_assets (Some assets_a1_b2)) mc1).
  vm_compute. reflexivity.
Defined.

(** X4: when the class's section of the [assets:] block is non-empty but has
    no [default] entry, registration raises [KeyError('default')] half way:
    the attribute is set and the class is in the registry with empty
    defaults, and the configuration is as it was. *)
Theorem register_without_default_entry
    (attr_name section_name folder_name : string) (exts : list string)
    (prio : Z) (mc : MpfMc)
    (assets : gmap string (gmap string settings)) (this_config : gmap string settings) :
  attrs mc !! attr_name = None ->
  cfg_assets (machine_config mc) = Some assets ->
  assets !! section_name = Some this_config ->
  this_config <> ∅ ->
  this_config !! "default" = None ->
  exists mc',
    register_asset_class attr_name section_name folder_name exts prio mc
    = (Raise (KeyError "default"), mc')
    /\ attrs mc' !! attr_name = Some (AssetDict [])
    /\ Build_asset_class attr_name folder_name section_name exts prio ∅
       ∈ _asset_classes mc'
    /\ machine_config mc' = machine_config mc.
Proof.
  intros Hnone Hassets Hsec Hne Hd.
  unfold register_asset_class. rewrite Hnone.
  cbn [machine_config set__asset_classes set_attrs]. rewrite Hassets.
  unfold _set_asset_class_defaults. cbn [config_section].
  rewrite bool_decide_eq_false_2.
  2:{ intros ->. rewrite lookup_empty in Hsec. discriminate. }
  rewrite Hsec. rewrite bool_decide_eq_false_2 by exact Hne. rewrite Hd.
  eexists. split; [reflexivity|]. split; [|split].
  - cbn. apply lookup_insert_eq.
  - cbn. rewrite sort_by_priority_perm. apply elem_of_app. right.
    apply list_elem_of_singleton. reflexivity.
  - cbn. unfold set_cfg_assets. rewrite <- Hassets.
    destruct (machine_config mc). reflexivity.
Qed.

(** X4 on [assets: images: foo: {b: 2}]. *)
Lemma register_without_default_entry_witness :
  exists mc',
    register_asset_class "images" "images" "images" [".png"] 0
                         (mc_with_assets (Some assets_no_default))
    = (Raise (KeyError "default"), mc')
    /\ attrs mc' !! "images" = Some (AssetDict [])
    /\ Build_asset_class "images" "images" "images" [".png"] 0 ∅ ∈ _asset_classes mc'
    /\ machine_config mc' = machine_config (mc_with_assets (Some assets_no_default)).
Proof.
  apply (register_without_default_entry "images" "images" "images" [".png"] 0
           (mc_with_assets (Some assets_no_default)) assets_no_default
           {[ "foo" := {[ "b" := VInt 2 ]} ]}).
  - reflexivity.
  - reflexivity.
  - vm_compute. reflexivity.
  - intros H. apply (f_equal (fun m => m !! "foo")) in H. vm_compute in H. discriminate.
  - vm_compute. reflexivity.
Defined.

(** X5: when the configuration has no [assets:] block, or the block has no
    section for the class, registration succeeds, leaves the configuration
    as it is, and the class enters the registry with empty defaults. *)
Theorem register_without_assets_section
    (attr_name section_name folder_name : string) (exts : list string)
    (prio : Z) (mc : MpfMc) :
  attrs mc !! attr_name = None ->
  (cfg_assets (machine_config mc) = None
   \/ exists assets, cfg_assets (machine_config mc) = Some assets
                     /\ assets !! section_name = None) ->
  exists mc',
    register_asset_class attr_name section_name folder_name exts prio mc = (Ok tt, mc')
    /\ machine_config mc' = machine_config mc
    /\ Build_asset_class attr_name folder_name section_name exts prio ∅
       ∈ _asset_classes mc'.
Proof.
  intros Hnone Hcfg.
  set (ac := Build_asset_class attr_name folder_name section_name exts prio ∅).
  assert (Hd : _set_asset_class_defaults ac (cfg_assets (machine_config mc))
               = (Ok ∅, cfg_assets (machine_config mc))).
  { destruct Hcfg as [->|(assets & -> & Hsec)]; [reflexivity|].
    unfold _set_asset_class_defaults. cbn [config_section ac].
    destruct (bool_decide (assets = ∅)); [reflexivity|]. rewrite Hsec. reflexivity. }
  unfold register_asset_class. rewrite Hnone.
  cbn [machine_config set__asset_classes set_attrs]. fold ac. rewrite Hd.
  eexists. split; [reflexivity|]. split.
  - cbn. unfold set_cfg_assets. destruct (machine_config mc). reflexivity.
  - cbn -[sort_by_priority store_defaults]. unfold store_defaults.
    change (ac ∈ (fun c => if String.eqb (attribute c) attr_name
                           then with_defaults ∅ c else c)
                 <$> sort_by_priority (_asset_classes mc ++ [ac])).
    apply list_elem_of_fmap. exists ac. split.
    + cbn. rewrite String.eqb_refl. reflexivity.
    + rewrite sort_by_priority_perm. apply elem_of_app. right.
      apply list_elem_of_singleton. reflexivity.
Qed.

(** X5 on a configuration with no [assets:] block. *)
Lemma register_without_assets_section_witness :
  exists mc',
    register_asset_class "images" "images" "images" [".png"] 0 (mc_with_assets None)
    = (Ok tt, mc')
    /\ machine_config mc' = machine_config (mc_with_assets None)
    /\ Build_asset_class "images" "images" "images" [".png"] 0 ∅ ∈ _asset_classes mc'.
Proof.
  apply (register_without_assets_section "images" "images" "images" [".png"] 0
           (mc_with_assets None)).
  - reflexivity.
  - left. reflexivity.
Defined.

(** ** More on discovery *)

(** X6: for a class with empty defaults (registered without an [assets:]
    section) discovery raises [KeyError('default')] at the first file with a
    registered extension, and writes nothing. *)
Theorem discovery_without_defaults
    (os_walk : string -> list (string * list string)) (mc : MpfMc)
    (ac : asset_class) (config : section) (mode_name : option string)
    (path : option string) (dir file_name : string) (rest : list (string * string)) :
  let root := OsPath.join (match path with
                           | Some p => if String.eqb p "" then machine_path mc else p
                           | None => machine_path mc
                           end) (path_string ac) in
  defaults ac = ∅ ->
  discovered os_walk ac root = (dir, file_name) :: rest ->
  _create_asset_config_entries os_walk mc ac config mode_name path
  = (Raise (KeyError "default"), config).
Proof.
  intros root Hd Hwalk. unfold _create_asset_config_entries. fold root.
  rewrite Hwalk. cbn [for_each]. unfold bind, process_file at 1. cbn [fst snd].
  unfold built_up_config, default_string, getitem. rewrite Hd.
  rewrite !lookup_empty.
  case_bool_decide as Hsome; [destruct Hsome; discriminate|].
  rewrite orb_true_r. reflexivity.
Qed.

(** X6 on the disk with [x.png] under [foo]. *)
Lemma discovery_without_defaults_witness :
  _create_asset_config_entries walk_foo_x (mc_with_assets None)
    (Build_asset_class "images" "images" "images" [".png"] 0 ∅)
    entries_x_a9 None None
  = (Raise (KeyError "default"), entries_x_a9).
Proof.
  apply (discovery_without_defaults walk_foo_x (mc_with_assets None)
           (Build_asset_class "images" "images" "images" [".png"] 0 ∅)
           entries_x_a9 None None "/machine/images/foo" "x.png" []).
  - reflexivity.
  - vm_compute. reflexivity.
Defined.

(** X7: a file with an ASCII name that matches no entry (by [file] setting or
    by name) is stored under its lower-cased stem, with the defaults of its
    folder, the joined path under [file], and a [load] of [mode_start]
    rewritten. *)
Theorem discovery_unmatched_file (ac : asset_class) (mode_name : option string)
    (config : section) (path file_name : string) (base : settings) :
  let stem := Str.lower (fst (OsPath.splitext file_name)) in
  Str.is_ascii file_name = true ->
  defaults ac !! default_string ac path = Some base ->
  find_entry file_name stem config = None ->
  is_Some (base !! "load") ->
  process_file ac mode_name (path, file_name) config
  = (Ok tt,
     Odict.set stem
       (rewrite_load mode_name (<["file" := VStr (OsPath.join path file_name)]> base))
       config).
Proof.
  intros stem _ Hbase Hfind [l Hl]. unfold process_file. cbn [fst snd].
  rewrite (built_up_config_spec ac mode_name config path file_name base Hbase).
  fold stem. rewrite Hfind, Hl. reflexivity.
Qed.

(** X7 on [Image1.PNG]-like naming: [Logo.png] in the top folder, no
    entries. *)
Lemma discovery_unmatched_file_witness :
  process_file (registered_images assets_a1_b2_load) None
               ("/machine/images", "Logo.png") []
  = (Ok tt, [("logo", {[ "a" := VInt 1; "load" := VStr "preload";
                         "file" := VStr "/machine/images/Logo.png" ]})]).
Proof.
  rewrite (discovery_unmatched_file (registered_images assets_a1_b2_load) None []
             "/machine/images" "Logo.png"
             {[ "a" := VInt 1; "load" := VStr "preload" ]}).
  - vm_compute. reflexivity.
  - reflexivity.
  - vm_compute. reflexivity.
  - reflexivity.
  - vm_compute. eauto.
Defined.

Lemma odict_keys_set_prefix {V} (d : list (string * V)) k v :
  Odict.keys d `prefix_of` Odict.keys (Odict.set k v d).
Proof.
  destruct (decide (k ∈ Odict.keys d)) as [Hin|Hn].
  - rewrite odict_keys_set_in by exact Hin. reflexivity.
  - rewrite odict_keys_set_notin by exact Hn. apply prefix_app_r. reflexivity.
Qed.

(** X8: discovery never removes, renames or reorders entries: whether it
    returns or raises, the names the config had are still there, in the same
    order and ahead of any new name, and no name is held twice. *)
Theorem discovery_keeps_entries (ac : asset_class) (mode_name : option string)
    (files : list (string * string)) :
  forall (config : section),
  Odict.wf config ->
  let final := snd (for_each files (process_file ac mode_name) config) in
  Odict.keys config `prefix_of` Odict.keys final /\ Odict.wf final.
Proof.
  induction files as [|pf files IH]; intros config Hwf; cbn.
  - split; [reflexivity | exact Hwf].
  - unfold bind.
    destruct (process_file ac mode_name pf config) as [r s'] eqn:Ep.
    unfold process_file in Ep.
    destruct (built_up_config ac mode_name config (fst pf) (snd pf)) as [[n b]|e];
      injection Ep as <- <-.
    + destruct (IH (Odict.set n b config) (odict_wf_set _ _ _ Hwf)) as [Hp Hw].
      split; [|exact Hw].
      etransitivity; [apply (odict_keys_set_prefix config n b) | exact Hp].
    + cbn. split; [reflexivity | exact Hwf].
Qed.

(** X8 on the walk that raises at its second file. *)
Lemma discovery_keeps_entries_witness :
  let final := snd (for_each [("/machine/images", "a.png");
                              ("/machine/images/foo", "x.png")]
                             (process_file (registered_images assets_a1_b2) None)
                             entries_a_load) in
  Odict.keys entries_a_load `prefix_of` Odict.keys final /\ Odict.wf final.
Proof.
  apply (discovery_keeps_entries (registered_images assets_a1_b2) None).
  unfold Odict.wf. cbn. apply NoDup_singleton.
Defined.






(** ** More on locating files *)

(** X10: whatever search root it is given, [locate_asset_file] only ever
    returns a path that is a file, built from the search root or from the
    machine path; and when it raises, it is a [ValueError] and the machine
    folder has no such file. *)
Theorem locate_asset_file_sound (os_path_isfile : string -> bool) (mc : MpfMc)
    (file_name folder_name : string) (path : option string) :
  match locate_asset_file os_path_isfile mc file_name folder_name path with
  | Ok p =>
      os_path_isfile p = true
      /\ (p = OsPath.join3 (machine_path mc) folder_name file_name
          \/ exists q, path = Some q /\ q <> ""
                       /\ p = OsPath.join3 q folder_name file_name)
  | Raise e =>
      e = ValueError ("Could not locate image '" ++ file_name ++ "'")
      /\ os_path_isfile (OsPath.join3 (machine_path mc) folder_name file_name) = false
  end.
Proof.
  unfold locate_asset_file.
  destruct path as [q|]; cbn.
  - destruct (String.eqb q "") eqn:Eq; cbn.
    + destruct (os_path_isfile (OsPath.join3 (machine_path mc) _ _)) eqn:E2; auto.
    + destruct (os_path_isfile (OsPath.join3 q _ _)) eqn:E1.
      * split; [exact E1|]. right. exists q. repeat split.
        intros ->. discriminate.
      * destruct (os_path_isfile (OsPath.join3 (machine_path mc) _ _)) eqn:E2; auto.
  - destruct (os_path_isfile (OsPath.join3 (machine_path mc) _ _)) eqn:E2; auto.
Qed.

(** ** The loader queue keeps its requests *)

Section HeapPermutation.
Context {A : Type} (lt : A -> A -> bool).
Implicit Types (heap : list A) (x : A).

Lemma insert_take_out heap j a b :
  heap !! j = Some b -> b :: <[j := a]> heap ≡ₚ a :: heap.
Proof.
  revert j. induction heap as [|c t IH]; intros [|k] H; cbn in *; try discriminate.
  - injection H as ->. apply perm_swap.
  - rewrite (perm_swap c b). rewrite (IH k H). apply perm_swap.
Qed.

(** Exchanging the items at two places of a list permutes it. *)
Lemma insert_swap heap i j a b :
  i <> j -> heap !! i = Some a -> heap !! j = Some b ->
  <[i := b]> (<[j := a]> heap) ≡ₚ heap.
Proof.
  revert i j. induction heap as [|c t IH]; intros [|i] [|j] Hne Hi Hj;
    cbn in *; try discriminate; try congruence.
  - injection Hi as ->. apply insert_take_out. exact Hj.
  - injection Hj as ->. apply insert_take_out. exact Hi.
  - f_equiv. apply IH; [lia | assumption | assumption].
Qed.

Lemma siftdown_loop_perm fuel :
  forall heap newitem startpos pos,
  (pos < length heap)%nat ->
  _siftdown_loop lt fuel heap newitem startpos pos ≡ₚ <[pos := newitem]> heap.
Proof.
  induction fuel as [|fuel IH]; intros heap newitem startpos pos Hpos;
    cbn [_siftdown_loop].
  - reflexivity.
  - destruct (startpos <? pos)%nat eqn:E; [|reflexivity].
    apply Nat.ltb_lt in E.
    assert (Hpar : ((pos - 1) / 2 < pos)%nat).
    { apply Nat.Div0.div_lt_upper_bound. lia. }
    destruct (heap !! ((pos - 1) / 2)%nat) as [parent|] eqn:Ep; [|reflexivity].
    destruct (lt newitem parent); [|reflexivity].
    rewrite IH by (rewrite length_insert; lia).
    rewrite <- (list_insert_insert_eq heap pos parent newitem).
    apply insert_swap.
    + lia.
    + rewrite list_lookup_insert_ne by lia. exact Ep.
    + apply list_lookup_insert_eq. exact Hpos.
Qed.

Lemma siftdown_perm heap startpos pos : _siftdown lt heap startpos pos ≡ₚ heap.
Proof.
  unfold _siftdown. destruct (heap !! pos) as [newitem|] eqn:E; [|reflexivity].
  rewrite siftdown_loop_perm by (eapply lookup_lt_Some; exact E).
  rewrite list_insert_id by exact E. reflexivity.
Qed.

Lemma siftup_loop_perm fuel :
  forall heap pos newitem heap' pos',
  (pos < length heap)%nat ->
  _siftup_loop lt fuel heap pos = (heap', pos') ->
  <[pos' := newitem]> heap' ≡ₚ <[pos := newitem]> heap.
Proof.
  induction fuel as [|fuel IH]; intros heap pos newitem heap' pos' Hpos Hrun;
    cbn [_siftup_loop] in Hrun.
  - injection Hrun as <- <-. reflexivity.
  - destruct (2 * pos + 1 <? length heap)%nat eqn:E.
    2:{ injection Hrun as <- <-. reflexivity. }
    apply Nat.ltb_lt in E.
    set (childpos := match heap !! (2 * pos + 1)%nat, heap !! (2 * pos + 1 + 1)%nat with
                     | Some l, Some r => if negb (lt l r) then (2 * pos + 1 + 1)%nat
                                         else (2 * pos + 1)%nat
                     | _, _ => (2 * pos + 1)%nat
                     end) in *.
    assert (Hchild : (pos < childpos)%nat).
    { subst childpos. destruct (heap !! (2 * pos + 1)%nat);
        [destruct (heap !! (2 * pos + 1 + 1)%nat); [destruct (negb _)|]|]; lia. }
    destruct (heap !! childpos) as [c|] eqn:Ec.
    2:{ injection Hrun as <- <-. reflexivity. }
    assert (Hlen : (childpos < length heap)%nat) by (eapply lookup_lt_Some; exact Ec).
    rewrite (IH _ _ newitem _ _ (ltac:(rewrite length_insert; exact Hlen)) Hrun).
    rewrite <- (list_insert_insert_eq heap pos c newitem).
    apply insert_swap.
    + lia.
    + rewrite list_lookup_insert_ne by lia. exact Ec.
    + apply list_lookup_insert_eq. exact Hpos.
Qed.

Lemma siftup_perm heap pos : _siftup lt heap pos ≡ₚ heap.
Proof.
  unfold _siftup. destruct (heap !! pos) as [newitem|] eqn:E; [|reflexivity].
  destruct (_siftup_loop lt (length heap) heap pos) as [heap' pos'] eqn:Es.
  rewrite siftdown_perm.
  rewrite (siftup_loop_perm _ _ _ newitem _ _ (lookup_lt_Some _ _ _ E) Es).
  rewrite list_insert_id by exact E. reflexivity.
Qed.

(** [heappush] adds the item and nothing else. *)
Lemma heappush_perm heap item : heappush lt heap item ≡ₚ item :: heap.
Proof.
  unfold heappush. rewrite siftdown_perm.
  rewrite Permutation_app_comm. reflexivity.
Qed.

(** [heappop] takes out one item and nothing else; it declines only on the
    empty heap. *)
Lemma heappop_perm heap x heap' :
  heappop lt heap = Some (x, heap') -> x :: heap' ≡ₚ heap.
Proof.
  unfold heappop. destruct (last heap) as [lastelt|] eqn:El; [|discriminate].
  assert (Hsplit : heap = (removelast heap ++ [lastelt])%list).
  { apply last_Some in El as [l' ->].
    rewrite removelast_last. reflexivity. }
  destruct (removelast heap) as [|returnitem rest] eqn:Er.
  - intros H. injection H as <- <-. rewrite Hsplit. reflexivity.
  - intros H. injection H as <- <-. rewrite siftup_perm. cbn.
    rewrite Hsplit. cbn. f_equiv.
    rewrite Permutation_app_comm. reflexivity.
Qed.

Lemma heappop_nonempty heap :
  heap <> [] -> exists x heap', heappop lt heap = Some (x, heap').
Proof.
  intros Hne. unfold heappop.
  destruct (last heap) as [lastelt|] eqn:El.
  - destruct (removelast heap); eauto.
  - apply last_None in El. contradiction.
Qed.

End HeapPermutation.

(** ** Requesting a load *)

(** X11: [load(callback, priority)] on an asset that is not loaded marks it
    loading, adds [callback] to its pending set (a set: a callback handed in
    twice is held once), overrides the priority if one is given, puts exactly
    one more request for the asset into the loader queue, counts it in
    [num_assets_to_load], schedules the poll unless [_loaded_watcher] says it
    is scheduled, and calls no callback. *)
Theorem load_when_not_loaded (mc : MpfMc) (self : ref) (a : Asset.t)
    (cb : callback) (prio : option value) :
  objects mc !! self = Some a ->
  Asset.loaded a = false ->
  exists mc' a',
    load self cb prio mc = (Ok tt, mc')
    /\ objects mc' !! self = Some a'
    /\ Asset.loading a' = true /\ Asset.loaded a' = false
    /\ Asset._callbacks a' = {[ cb ]} ∪ Asset._callbacks a
    /\ Asset.priority a' = default (Asset.priority a) prio
    /\ loader_queue mc' ≡ₚ self :: loader_queue mc
    /\ num_assets_to_load mc' = num_assets_to_load mc + 1
    /\ num_assets_loaded mc' = num_assets_loaded mc
    /\ _loaded_watcher mc' = true
    /\ clock mc' = (if _loaded_watcher mc then clock mc
                    else clock mc ++ [check_loader_status_event])%list
    /\ trace mc' = trace mc
    /\ loaded_queue mc' = loaded_queue mc.
Proof.
  intros Hobj Hl. unfold load.
  set (mc1 := match prio with
              | Some p => update_asset self (Asset.set_priority p) mc
              | None => mc
              end).
  assert (H1 : exists a1, objects mc1 !! self = Some a1
                 /\ Asset.loaded a1 = false
                 /\ Asset._callbacks a1 = Asset._callbacks a
                 /\ Asset.priority a1 = default (Asset.priority a) prio).
  { subst mc1. destruct prio as [p|].
    - rewrite objects_update_asset, Hobj. eexists. split; [reflexivity|]. cbn. auto.
    - exists a. auto. }
  destruct H1 as (a1 & Hobj1 & Hl1 & Hcb1 & Hp1).
  assert (Hframe : trace mc1 = trace mc /\ loader_queue mc1 = loader_queue mc
                   /\ loaded_queue mc1 = loaded_queue mc
                   /\ num_assets_to_load mc1 = num_assets_to_load mc
                   /\ num_assets_loaded mc1 = num_assets_loaded mc
                   /\ _loaded_watcher mc1 = _loaded_watcher mc
                   /\ clock mc1 = clock mc).
  { subst mc1. destruct prio; cbn; repeat split; reflexivity. }
  destruct Hframe as (Ht & Hq & Hlq & Hn1 & Hn2 & Hw & Hc).
  rewrite objects_update_asset, Hobj1. cbn [fmap option_fmap option_map].
  cbn [Asset.loaded Asset.set__callbacks]. rewrite Hl1.
  unfold _load_asset.
  set (a' := Asset.set_loading true
               (Asset.set__callbacks ({[ cb ]} ∪ Asset._callbacks a1) a1)).
  assert (Hobj' : forall m, objects m = objects (update_asset self (Asset.set_loading true)
                             (update_asset self
                                (fun a0 => Asset.set__callbacks
                                             ({[ cb ]} ∪ Asset._callbacks a0) a0) mc1)) ->
                            objects m !! self = Some a').
  { intros m ->. rewrite !objects_update_asset, Hobj1. reflexivity. }
  cbn [_loaded_watcher set_loader_queue set_num_assets_to_load update_asset
       set_objects]. rewrite Hw.
  destruct (_loaded_watcher mc) eqn:Ew; cbn [negb].
  - eexists. exists a'. split; [reflexivity|].
    split; [apply Hobj'; reflexivity|].
    subst a'. cbn. rewrite Hcb1, Hq, Hn1, Hn2, Ht, Hlq, Hc, Hw.
    repeat split; try assumption; try reflexivity.
    apply heappush_perm.
  - eexists. exists a'. split; [reflexivity|].
    split; [apply Hobj'; reflexivity|].
    subst a'. cbn. rewrite Hcb1, Hq, Hn1, Hn2, Ht, Hlq, Hc.
    repeat split; try assumption; try reflexivity.
    apply heappush_perm.
Qed.

(** X11 on a fresh asset in an idle manager. *)
Lemma load_when_not_loaded_witness :
  exists mc' a',
    load 0%nat (Some 7%nat) (Some (VInt 5)) mc_two_created = (Ok tt, mc')
    /\ objects mc' !! 0%nat = Some a'
    /\ Asset.loading a' = true /\ Asset.loaded a' = false
    /\ Asset._callbacks a' = {[ Some 7%nat ]} ∪ ∅
    /\ Asset.priority a' = VInt 5
    /\ loader_queue mc' ≡ₚ [0%nat]
    /\ num_assets_to_load mc' = 1
    /\ num_assets_loaded mc' = 0
    /\ _loaded_watcher mc' = true
    /\ clock mc' = [check_loader_status_event]
    /\ trace mc' = []
    /\ loaded_queue mc' = [].
Proof.
  apply (load_when_not_loaded mc_two_created 0%nat
           {| Asset.name := "a"; Asset.config := {[ "load" := VStr "preload" ]};
              Asset.file := "/machine/images/a.png";
              Asset.priority := VInt 0; Asset._callbacks := ∅; Asset._id := 1;
              Asset.loading := false; Asset.loaded := false;
              Asset.unloading := false |} (Some 7%nat) (Some (VInt 5))).
  - vm_compute. reflexivity.
  - reflexivity.
Defined.

(** ** The loader thread finishes what it can *)

Lemma run_turn_completes {impl : AssetImpl} (mc : MpfMc) (asset : ref) (q' : list ref) :
  heappop (ref_lt mc) (loader_queue mc) = Some (asset, q') ->
  completes mc asset ->
  exists mc',
    run_turn mc = Continue mc'
    /\ loader_queue mc' = q'
    /\ loaded_queue mc' = (loaded_queue mc ++ [asset])%list
    /\ crash_queue mc' = crash_queue mc
    /\ loader_alive mc' = loader_alive mc
    /\ objects mc' = objects mc.
Proof.
  intros Hpop (a & Hobj & Hok). unfold run_turn. rewrite Hpop.
  cbn [objects set_loader_queue]. rewrite Hobj. unfold load_if_needed.
  destruct (Asset.loaded a) eqn:El; cbn [negb].
  - eexists. split; [reflexivity|]. cbn. repeat split; reflexivity.
  - destruct Hok as [Hok|Hok]; [discriminate|]. rewrite Hok.
    eexists. split; [reflexivity|]. cbn. repeat split; reflexivity.
Qed.

(** X12: left alone with a queue of requests it can finish (each asset
    loaded already, or with a load primitive that returns), the loader thread
    empties the loader queue and publishes every request to the completion
    queue exactly once; nothing goes to the crash queue and the thread stays
    alive. *)
Theorem run_publishes_every_request {impl : AssetImpl} (fuel : nat) :
  forall mc : MpfMc,
  (length (loader_queue mc) <= fuel)%nat ->
  Forall (completes mc) (loader_queue mc) ->
  let mc' := run fuel mc in
  loader_queue mc' = []
  /\ loaded_queue mc' ≡ₚ (loaded_queue mc ++ loader_queue mc)%list
  /\ crash_queue mc' = crash_queue mc
  /\ loader_alive mc' = loader_alive mc
  /\ objects mc' = objects mc.
Proof.
  induction fuel as [|fuel IH]; intros mc Hlen Hall; cbn [run].
  - destruct (loader_queue mc) eqn:Eq; [|cbn in Hlen; lia].
    rewrite app_nil_r. repeat split; reflexivity.
  - destruct (loader_queue mc) as [|r0 q0] eqn:Eq.
    + unfold run_turn. rewrite Eq. cbn. rewrite Eq, app_nil_r.
      repeat split; reflexivity.
    + destruct (heappop_nonempty (ref_lt mc) (loader_queue mc)) as (x & q' & Hpop).
      { rewrite Eq. discriminate. }
      pose proof (heappop_perm _ _ _ _ Hpop) as Hperm.
      assert (Hx : completes mc x).
      { rewrite Forall_forall in Hall. apply Hall. rewrite <- Eq, <- Hperm.
        apply elem_of_cons. left. reflexivity. }
      destruct (run_turn_completes mc x q' Hpop Hx)
        as (mc1 & Hturn & Hq1 & Hlq1 & Hc1 & Ha1 & Ho1).
      rewrite Hturn.
      assert (Hlen1 : (length (loader_queue mc1) <= fuel)%nat).
      { rewrite Hq1. apply Permutation_length in Hperm. cbn in Hperm.
        rewrite Eq in Hperm. cbn in Hperm, Hlen. lia. }
      assert (Hall1 : Forall (completes mc1) (loader_queue mc1)).
      { rewrite Hq1. apply Forall_forall. intros r Hr.
        rewrite Forall_forall in Hall. unfold completes. rewrite Ho1.
        apply Hall. rewrite <- Eq, <- Hperm. apply elem_of_cons. right. exact Hr. }
      destruct (IH mc1 Hlen1 Hall1) as (Hq & Hlq & Hc & Ha & Ho).
      split; [exact Hq|]. split; [|rewrite Hc, Ha, Ho; auto].
      rewrite Hlq, Hlq1, Hq1, <- Eq, <- Hperm, <- app_assoc. reflexivity.
Qed.

(** X12 on the three queued requests of equal priority, with primitives that
    return. *)
Lemma run_publishes_every_request_witness :
  let mc' := run (impl := AssetClass_ok) 3 mc_three_queued in
  loader_queue mc' = []
  /\ loaded_queue mc' ≡ₚ (loaded_queue mc_three_queued ++ loader_queue mc_three_queued)%list
  /\ crash_queue mc' = crash_queue mc_three_queued
  /\ loader_alive mc' = loader_alive mc_three_queued
  /\ objects mc' = objects mc_three_queued.
Proof.
  apply (run_publishes_every_request (impl := AssetClass_ok) 3 mc_three_queued).
  - vm_compute. lia.
  - apply Forall_forall. intros r Hr.
    assert (Hq : loader_queue mc_three_queued = [2; 0; 1]%nat)
      by (vm_compute; reflexivity).
    rewrite Hq in Hr.
    assert (Hcase : r = 2%nat \/ r = 0%nat \/ r = 1%nat).
    { apply elem_of_cons in Hr as [->|Hr]; [auto|].
      apply elem_of_cons in Hr as [->|Hr]; [auto|].
      apply list_elem_of_singleton in Hr. auto. }
    destruct Hcase as [-> | [-> | ->]];
      (eexists; split; [vm_compute; reflexivity | right; reflexivity]).
Defined.

(** ** Polling *)

Lemma loaded_marks_loaded (self : ref) (mc : MpfMc) (a : Asset.t) :
  objects mc !! self = Some a ->
  exists a', objects (snd (_loaded self mc)) !! self = Some a'
             /\ is_Loaded a'
             /\ Asset.name a' = Asset.name a /\ Asset._id a' = Asset._id a
             /\ Asset.config a' = Asset.config a.
Proof.
  intros Hobj. unfold _loaded, _call_callbacks.
  rewrite !objects_update_asset, Hobj. cbn [fmap option_fmap option_map snd].
  rewrite objects_update_asset. cbn [objects set_trace].
  rewrite !objects_update_asset, Hobj. cbn.
  eexists. split; [reflexivity|]. unfold is_Loaded. cbn. auto 10.
Qed.

Lemma loaded_keeps_others (self r : ref) (mc : MpfMc) :
  r <> self -> objects (snd (_loaded self mc)) !! r = objects mc !! r.
Proof.
  intros Hne. unfold _loaded, _call_callbacks.
  match goal with |- context [match ?o with Some _ => _ | None => _ end] =>
    destruct o end; cbn; rewrite ?lookup_alter_ne by congruence; reflexivity.
Qed.

Lemma loaded_keeps_loaded (self r : ref) (mc : MpfMc) (a : Asset.t) :
  objects mc !! r = Some a -> is_Loaded a ->
  exists a', objects (snd (_loaded self mc)) !! r = Some a' /\ is_Loaded a'
             /\ Asset.name a' = Asset.name a /\ Asset._id a' = Asset._id a
             /\ Asset.config a' = Asset.config a.
Proof.
  intros Hobj Hl. destruct (decide (r = self)) as [->|Hne].
  - destruct (loaded_marks_loaded self mc a Hobj) as (a' & H1 & H2 & H3).
    exists a'. auto.
  - exists a. rewrite loaded_keeps_others by exact Hne. auto.
Qed.

Lemma drain_marks_loaded (q : list ref) :
  forall (mc : MpfMc) (r : ref) (a : Asset.t),
  objects mc !! r = Some a ->
  (r ∈ q \/ is_Loaded a) ->
  exists a', objects (snd (drain_loaded_queue q mc)) !! r = Some a'
             /\ is_Loaded a'
             /\ Asset.name a' = Asset.name a /\ Asset._id a' = Asset._id a
             /\ Asset.config a' = Asset.config a.
Proof.
  induction q as [|x q IH]; intros mc r a Hobj Hcase.
  - destruct Hcase as [Hin|Hl]; [inversion Hin|]. exists a. cbn. auto.
  - cbn [drain_loaded_queue].
    destruct (loaded_frame x (set_loaded_queue q mc)) as (mc1 & Hrun & _).
    assert (Hmc1 : mc1 = snd (_loaded x (set_loaded_queue q mc)))
      by (rewrite Hrun; reflexivity).
    rewrite Hrun.
    assert (Hstep : exists a1, objects mc1 !! r = Some a1
                      /\ (r ∈ q \/ is_Loaded a1)
                      /\ Asset.name a1 = Asset.name a /\ Asset._id a1 = Asset._id a
                      /\ Asset.config a1 = Asset.config a).
    { destruct Hcase as [Hin|Hl].
      - apply elem_of_cons in Hin as [->|Hin].
        + destruct (loaded_marks_loaded x (set_loaded_queue q mc) a Hobj)
            as (a1 & H1 & H2 & H3).
          exists a1. rewrite Hmc1. auto.
        + destruct (decide (r = x)) as [->|Hne].
          * destruct (loaded_marks_loaded x (set_loaded_queue q mc) a Hobj)
              as (a1 & H1 & H2 & H3).
            exists a1. rewrite Hmc1. auto.
          * exists a. rewrite Hmc1, loaded_keeps_others by exact Hne. auto.
      - destruct (loaded_keeps_loaded x r (set_loaded_queue q mc) a Hobj Hl)
          as (a1 & H1 & H2 & H3).
        exists a1. rewrite Hmc1. auto. }
    destruct Hstep as (a1 & Hobj1 & Hcase1 & Hn1 & Hi1 & Hc1).
    destruct (IH (set_num_assets_loaded (num_assets_loaded mc1 + 1) mc1) r a1 Hobj1 Hcase1)
      as (a' & Ho' & Hl' & Hn' & Hi' & Hc').
    exists a'. split; [exact Ho'|]. split; [exact Hl'|].
    rewrite Hn', Hi', Hc'. auto.
Qed.

(** X13: after [_check_loader_status] every asset that was in the completion
    queue is loaded, not loading, not unloading, and has no pending callback
    left; its name, id and config are as before; and the completion queue is
    empty. *)
Theorem check_loader_status_marks_loaded (mc : MpfMc) (r : ref) (a : Asset.t) :
  r ∈ loaded_queue mc ->
  objects mc !! r = Some a ->
  exists mc' a',
    _check_loader_status mc = (Ok tt, mc')
    /\ objects mc' !! r = Some a'
    /\ is_Loaded a'
    /\ Asset.name a' = Asset.name a /\ Asset._id a' = Asset._id a
    /\ Asset.config a' = Asset.config a
    /\ loaded_queue mc' = [].
Proof.
  intros Hin Hobj. unfold _check_loader_status.
  destruct (drain_loaded_queue_spec (loaded_queue mc) mc eq_refl)
    as (mc1 & Hrun & _ & _ & Hlq & _).
  destruct (drain_marks_loaded (loaded_queue mc) mc r a Hobj (or_introl Hin))
    as (a' & Ho & Hl & Hrest).
  rewrite Hrun in *. cbn [snd] in Ho.
  destruct Hrest as (Hn & Hi & Hc).
  destruct (num_assets_to_load mc1 =? num_assets_loaded mc1);
    (eexists; exists a'; split; [reflexivity|]; cbn;
     repeat split; try assumption; apply Hl).
Qed.

(** X13 on one published completion. *)
Lemma check_loader_status_marks_loaded_witness :
  let mc := match run_turn (impl := AssetClass_ok) mc_one_queued with
            | Continue mc => mc
            | _ => mc_one_queued
            end in
  exists mc' a',
    _check_loader_status mc = (Ok tt, mc')
    /\ objects mc' !! 0%nat = Some a'
    /\ is_Loaded a'
    /\ Asset.name a' = "a" /\ Asset._id a' = 1
    /\ Asset.config a' = {[ "load" := VStr "preload" ]}
    /\ loaded_queue mc' = [].
Proof.
  intros mc.
  apply (check_loader_status_marks_loaded mc 0%nat
           (Asset.set_loading true
              (Asset.set__callbacks {[ Some 7%nat ]} (fresh_asset "a" 1 (VInt 0))))).
  - vm_compute. apply elem_of_cons. left. reflexivity.
  - vm_compute. reflexivity.
Defined.

(** ** One asset from request to loaded, and back *)

(** X14: in an idle manager, [load(callback)] on an asset that is not loaded,
    one turn of the loader thread whose load primitive returns, and one clock
    tick leave the asset loaded with no pending callback; the primitive was
    invoked once and then every callable of the pending set was called once;
    both counters are back at zero, both queues are empty and the poll is
    unscheduled. *)
Theorem load_turn_tick {impl : AssetImpl} (mc : MpfMc) (self : ref) (a : Asset.t)
    (cb : callback) :
  objects mc !! self = Some a ->
  Asset.loaded a = false ->
  loader_queue mc = [] ->
  loaded_queue mc = [] ->
  num_assets_to_load mc = 0 ->
  num_assets_loaded mc = 0 ->
  _loaded_watcher mc = false ->
  check_loader_status_event ∉ clock mc ->
  let pending : gset callback := {[ cb ]} ∪ Asset._callbacks a in
  _do_load (Asset.set_loading true (Asset.set__callbacks pending a)) = Ok tt ->
  exists mc1 mc2 mc3 a3,
    load self cb None mc = (Ok tt, mc1)
    /\ run_turn mc1 = Continue mc2
    /\ clock_tick mc2 = (Ok tt, mc3)
    /\ objects mc3 !! self = Some a3
    /\ is_Loaded a3
    /\ trace mc3 = (trace mc ++ DoLoad self :: map Called (callables pending))%list
    /\ num_assets_to_load mc3 = 0
    /\ num_assets_loaded mc3 = 0
    /\ _loaded_watcher mc3 = false
    /\ loader_queue mc3 = []
    /\ loaded_queue mc3 = []
    /\ check_loader_status_event ∉ clock mc3.
Proof.
  intros Hobj Hl Hq Hlq Hn1 Hn2 Hw Hc pending Hprim.
  (* load *)
  assert (Hload : exists mc1,
             load self cb None mc = (Ok tt, mc1)
             /\ objects mc1 = <[self := Asset.set_loading true
                                         (Asset.set__callbacks pending a)]> (objects mc)
             /\ loader_queue mc1 = [self]
             /\ loaded_queue mc1 = []
             /\ num_assets_to_load mc1 = 1
             /\ num_assets_loaded mc1 = 0
             /\ _loaded_watcher mc1 = true
             /\ clock mc1 = (clock mc ++ [check_loader_status_event])%list
             /\ trace mc1 = trace mc
             /\ crash_queue mc1 = crash_queue mc).
  { unfold load. rewrite objects_update_asset, Hobj.
    cbn [fmap option_fmap option_map Asset.loaded Asset.set__callbacks].
    rewrite Hl. unfold _load_asset.
    cbn [_loaded_watcher set_loader_queue set_num_assets_to_load update_asset
         set_objects loader_queue num_assets_to_load clock].
    rewrite Hw, Hq, Hn1. cbn [negb].
    eexists. split; [reflexivity|]. cbn.
    rewrite Hlq, Hn2.
    repeat split; try reflexivity.
    apply map_eq. intros r. destruct (decide (r = self)) as [->|Hne].
    - rewrite lookup_alter_eq, lookup_alter_eq, Hobj, lookup_insert_eq. reflexivity.
    - rewrite !lookup_alter_ne, lookup_insert_ne by congruence. reflexivity. }
  destruct Hload as (mc1 & Hrun1 & Ho1 & Hq1 & Hlq1 & Ht1 & Hd1 & Hw1 & Hc1 & Htr1 & Hcq1).
  exists mc1.
  (* the loader's turn *)
  assert (Hturn : exists mc2,
             run_turn mc1 = Continue mc2
             /\ objects mc2 = objects mc1
             /\ loader_queue mc2 = []
             /\ loaded_queue mc2 = [self]
             /\ num_assets_to_load mc2 = 1
             /\ num_assets_loaded mc2 = 0
             /\ _loaded_watcher mc2 = true
             /\ clock mc2 = clock mc1
             /\ trace mc2 = (trace mc ++ [DoLoad self])%list).
  { unfold run_turn. rewrite Hq1. cbn [heappop last removelast].
    cbn [objects set_loader_queue]. rewrite Ho1, lookup_insert_eq.
    unfold load_if_needed. cbn [Asset.loaded Asset.set_loading Asset.set__callbacks].
    rewrite Hl. cbn [negb]. rewrite Hprim.
    eexists. split; [reflexivity|]. cbn.
    rewrite Ho1, Hlq1, Ht1, Hd1, Hw1, Htr1. repeat split; reflexivity. }
  destruct Hturn as (mc2 & Hrun2 & Ho2 & Hq2 & Hlq2 & Ht2 & Hd2 & Hw2 & Hc2 & Htr2).
  exists mc2.
  (* the tick *)
  assert (Hin : check_loader_status_event ∈ clock mc2).
  { rewrite Hc2, Hc1. apply elem_of_app. right. apply list_elem_of_singleton. reflexivity. }
  unfold clock_tick. rewrite (bool_decide_eq_true_2 _ Hin).
  unfold _check_loader_status. rewrite Hlq2.
  cbn [drain_loaded_queue]. unfold _loaded, _call_callbacks.
  rewrite !objects_update_asset. cbn [objects set_loaded_queue].
  rewrite Ho2, Ho1, lookup_insert_eq. cbn [fmap option_fmap option_map].
  cbn [ret num_assets_to_load num_assets_loaded set_num_assets_loaded update_asset
       set_objects set_trace set_loaded_queue].
  rewrite Ht2, Hd2. cbn [Z.add Z.eqb Pos.add Pos.eqb].
  eexists. eexists. split; [exact Hrun1|]. split; [exact Hrun2|].
  split; [reflexivity|].
  split.
  { cbn. rewrite !lookup_alter_eq, Ho2, Ho1, lookup_insert_eq. reflexivity. }
  split; [unfold is_Loaded; cbn; auto|].
  cbn. rewrite Htr2, <- app_assoc. cbn.
  repeat split; try reflexivity; try assumption.
  apply check_event_filtered.
Qed.

(** X14 on asset [a] of two created ones, with callable [7]. *)
Lemma load_turn_tick_witness :
  exists mc1 mc2 mc3 a3,
    load 0%nat (Some 7%nat) None mc_two_created = (Ok tt, mc1)
    /\ run_turn (impl := AssetClass_ok) mc1 = Continue mc2
    /\ clock_tick mc2 = (Ok tt, mc3)
    /\ objects mc3 !! 0%nat = Some a3
    /\ is_Loaded a3
    /\ trace mc3 = (trace mc_two_created
                    ++ DoLoad 0%nat :: map Called (callables ({[ Some 7%nat ]} ∪ ∅)))%list
    /\ num_assets_to_load mc3 = 0
    /\ num_assets_loaded mc3 = 0
    /\ _loaded_watcher mc3 = false
    /\ loader_queue mc3 = []
    /\ loaded_queue mc3 = []
    /\ check_loader_status_event ∉ clock mc3.
Proof.
  apply (load_turn_tick (impl := AssetClass_ok) mc_two_created 0%nat
           (fresh_asset "a" 1 (VInt 0)) (Some 7%nat)).
  - vm_compute. reflexivity.
  - reflexivity.
  - reflexivity.
  - reflexivity.
  - reflexivity.
  - reflexivity.
  - reflexivity.
  - vm_compute. apply not_elem_of_nil.
  - reflexivity.
Defined.

(** ** Creating assets *)

(** X15: [AssetClass(...)] gives the new object the next creation id, one
    above every id handed out so far, so ids stay distinct; the object starts
    unloaded with no pending callback and the priority of its config (0 when
    the config has none); the objects that existed are untouched. *)
Theorem new_asset_fresh_id (mc : MpfMc) (name file : string) (config : settings) :
  ids_ok mc ->
  exists r mc',
    new_asset name file config mc = (Ok r, mc')
    /\ objects mc !! r = None
    /\ objects mc'
       = <[r := {| Asset.name := name; Asset.config := config; Asset.file := file;
                   Asset.priority := default (VInt 0) (config !! "priority");
                   Asset._callbacks := ∅; Asset._id := _next_id mc + 1;
                   Asset.loading := false; Asset.loaded := false;
                   Asset.unloading := false |}]> (objects mc)
    /\ _next_id mc' = _next_id mc + 1
    /\ (forall r0 a0, objects mc !! r0 = Some a0 -> Asset._id a0 < _next_id mc + 1)
    /\ ids_ok mc'.
Proof.
  intros [Hle Hinj]. unfold new_asset, _get_id.
  cbn [objects set__next_id _next_id].
  set (r := fresh (dom (objects mc))).
  assert (Hfresh : objects mc !! r = None).
  { apply not_elem_of_dom. apply is_fresh. }
  exists r. eexists. split; [reflexivity|]. split; [exact Hfresh|].
  split.
  { cbn. unfold config_priority. destruct (config !! "priority"); reflexivity. }
  split; [reflexivity|].
  split; [intros r0 a0 H0; specialize (Hle r0 a0 H0); lia|].
  split; cbn.
  - intros r0 a0 H0. destruct (decide (r0 = r)) as [->|Hne].
    + rewrite lookup_insert_eq in H0. injection H0 as <-. cbn. lia.
    + rewrite lookup_insert_ne in H0 by congruence. specialize (Hle r0 a0 H0). lia.
  - intros r1 r2 a1 a2 H1 H2 Heq.
    destruct (decide (r1 = r)) as [->|Hne1]; destruct (decide (r2 = r)) as [->|Hne2].
    + reflexivity.
    + rewrite lookup_insert_eq in H1. injection H1 as <-.
      rewrite lookup_insert_ne in H2 by congruence.
      specialize (Hle r2 a2 H2). cbn in Heq. lia.
    + rewrite lookup_insert_eq in H2. injection H2 as <-.
      rewrite lookup_insert_ne in H1 by congruence.
      specialize (Hle r1 a1 H1). cbn in Heq. lia.
    + rewrite lookup_insert_ne in H1, H2 by congruence. eauto.
Qed.

(** X15 on the world with two assets created. *)
Lemma new_asset_fresh_id_witness :
  exists r mc',
    new_asset "c" "/machine/images/c.png" {[ "priority" := VInt 4 ]} mc_two_created
    = (Ok r, mc')
    /\ objects mc_two_created !! r = None
    /\ objects mc'
       = <[r := {| Asset.name := "c"; Asset.config := {[ "priority" := VInt 4 ]};
                   Asset.file := "/machine/images/c.png";
                   Asset.priority :=
                     default (VInt 0)
                             (({[ "priority" := VInt 4 ]} : settings) !! "priority");
                   Asset._callbacks := ∅; Asset._id := _next_id mc_two_created + 1;
                   Asset.loading := false; Asset.loaded := false;
                   Asset.unloading := false |}]> (objects mc_two_created)
    /\ _next_id mc' = _next_id mc_two_created + 1
    /\ (forall r0 a0, objects mc_two_created !! r0 = Some a0 ->
                      Asset._id a0 < _next_id mc_two_created + 1)
    /\ ids_ok mc'.
Proof.
  apply (new_asset_fresh_id mc_two_created "c" "/machine/images/c.png"
           {[ "priority" := VInt 4 ]}).
  assert (Hobjs : forall r a, objects mc_two_created !! r = Some a ->
                    (r = 0%nat /\ Asset._id a = 1) \/ (r = 1%nat /\ Asset._id a = 2)).
  { intros r a H.
    destruct r as [|[|r]].
    - vm_compute in H. injection H as <-. left. split; reflexivity.
    - vm_compute in H. injection H as <-. right. split; reflexivity.
    - exfalso. clear -H.
      assert (Hd : S (S r) ∈ dom (objects mc_two_created)) by (apply elem_of_dom; eauto).
      assert (Hdom : dom (objects mc_two_created) = {[ 0%nat; 1%nat ]})
        by (vm_compute; reflexivity).
      rewrite Hdom in Hd. set_solver. }
  split.
  - intros r a H. destruct (Hobjs r a H) as [[_ ->]|[_ ->]]; vm_compute; discriminate.
  - intros r r' a a' H H' Heq.
    destruct (Hobjs r a H) as [[-> Ha]|[-> Ha]];
      destruct (Hobjs r' a' H') as [[-> Ha']|[-> Ha']]; try reflexivity; lia.
Defined.

(** ** Loading by trigger *)

Lemma same_catalogue_refl mc : same_catalogue mc mc.
Proof. repeat split; reflexivity. Qed.

Lemma same_catalogue_trans mc1 mc2 mc3 :
  same_catalogue mc1 mc2 -> same_catalogue mc2 mc3 -> same_catalogue mc1 mc3.
Proof.
  intros (Ha & Hc & Ho) (Ha' & Hc' & Ho').
  split; [congruence|]. split; [congruence|].
  intros r. rewrite Ho', Ho. reflexivity.
Qed.

Lemma objects_update_asset_ne r self f mc :
  r <> self -> objects (update_asset self f mc) !! r = objects mc !! r.
Proof. intros Hne. unfold update_asset. cbn. apply lookup_alter_ne. congruence. Qed.

Ltac objects_simpl :=
  repeat (rewrite objects_update_asset
          || (rewrite objects_update_asset_ne by congruence)
          || (progress (cbn [objects set_trace set_loader_queue
                                  set_num_assets_to_load set_clock
                                  set__loaded_watcher set_loaded_queue
                                  set_num_assets_loaded set_crash_queue
                                  set_loader_alive]))).

(** [load] with no priority: what it leaves alone. *)
Lemma load_frame (self : ref) (cb : callback) (mc : MpfMc) :
  exists mc',
    load self cb None mc = (Ok tt, mc')
    /\ same_catalogue mc mc'
    /\ (forall r, Asset.priority <$> objects mc' !! r = Asset.priority <$> objects mc !! r)
    /\ (forall r, r <> self -> objects mc' !! r = objects mc !! r).
Proof.
  unfold load. rewrite objects_update_asset.
  destruct (objects mc !! self) as [a|] eqn:Hobj; cbn [fmap option_fmap option_map].
  - cbn [Asset.loaded Asset.set__callbacks].
    destruct (Asset.loaded a) eqn:El.
    + unfold _call_callbacks. rewrite objects_update_asset, Hobj.
      cbn [fmap option_fmap option_map].
      eexists. split; [reflexivity|].
      split; [split; [reflexivity | split; [reflexivity|]]|split].
      * intros r. destruct (decide (r = self)) as [->|Hne]; objects_simpl;
          [rewrite Hobj|]; reflexivity.
      * intros r. destruct (decide (r = self)) as [->|Hne]; objects_simpl;
          [rewrite Hobj|]; reflexivity.
      * intros r Hne. objects_simpl. reflexivity.
    + unfold _load_asset.
      match goal with |- context [if negb ?w then _ else _] => destruct w end;
        cbn [negb]; (eexists; split; [reflexivity|]);
        (split; [split; [reflexivity | split; [reflexivity|]]|split];
         [ intros r; destruct (decide (r = self)) as [->|Hne]; objects_simpl;
             [rewrite Hobj|]; reflexivity
         | intros r; destruct (decide (r = self)) as [->|Hne]; objects_simpl;
             [rewrite Hobj|]; reflexivity
         | intros r Hne; objects_simpl; reflexivity ]).
  - eexists. split; [reflexivity|].
    split; [split; [reflexivity | split; [reflexivity|]]|split].
    + intros r. destruct (decide (r = self)) as [->|Hne]; objects_simpl;
        [rewrite Hobj|]; reflexivity.
    + intros r. destruct (decide (r = self)) as [->|Hne]; objects_simpl;
        [rewrite Hobj|]; reflexivity.
    + intros r Hne. objects_simpl. reflexivity.
Qed.

Lemma with_load_key_same mc mc' key l :
  (forall r, Asset.config <$> objects mc' !! r = Asset.config <$> objects mc !! r) ->
  with_load_key mc' key l = with_load_key mc key l.
Proof.
  intros Hcfg. induction l as [|x l IH]; cbn; [reflexivity|].
  specialize (Hcfg x).
  destruct (objects mc' !! x) as [a'|], (objects mc !! x) as [a|];
    cbn in Hcfg; try discriminate; [|exact IH].
  injection Hcfg as ->. rewrite IH. reflexivity.
Qed.

(** The comprehension keeps exactly the assets whose [load] is the key. *)
Lemma with_load_key_spec mc key l sel :
  with_load_key mc key l = Ok sel ->
  forall r, r ∈ sel <->
            r ∈ l /\ exists a, objects mc !! r = Some a
                               /\ Asset.config a !! "load" = Some (VStr key).
Proof.
  revert sel. induction l as [|x l IH]; intros sel Hsel r; cbn in Hsel.
  - injection Hsel as <-. split; [intros H; inversion H | intros [H _]; inversion H].
  - destruct (objects mc !! x) as [a|] eqn:Hx.
    + unfold getitem in Hsel.
      destruct (Asset.config a !! "load") as [v|] eqn:Hv; [|discriminate].
      destruct (with_load_key mc key l) as [sel'|] eqn:Hrec; [|discriminate].
      injection Hsel as <-. specialize (IH sel' eq_refl r).
      case_bool_decide as Hkey.
      * rewrite !elem_of_cons, IH. naive_solver.
      * rewrite IH, elem_of_cons. naive_solver.
    + rewrite (IH sel Hsel r), elem_of_cons. naive_solver.
Qed.

Lemma with_load_key_ok mc key l :
  (forall r a, r ∈ l -> objects mc !! r = Some a -> is_Some (Asset.config a !! "load")) ->
  exists sel, with_load_key mc key l = Ok sel.
Proof.
  induction l as [|x l IH]; intros Hall; cbn; [eauto|].
  destruct IH as [sel Hsel].
  { intros r a Hr. apply Hall. apply elem_of_cons. auto. }
  rewrite Hsel. destruct (objects mc !! x) as [a|] eqn:Hx; [|eauto].
  destruct (Hall x a) as [v Hv]; [apply elem_of_cons; auto | exact Hx |].
  unfold getitem. rewrite Hv. eauto.
Qed.

Lemma load_each_spec (sel : list ref) :
  forall (assets : gset ref) (mc : MpfMc),
  exists mc',
    load_each sel assets mc = (Ok (list_to_set sel ∪ assets), mc')
    /\ same_catalogue mc mc'
    /\ (forall r, Asset.priority <$> objects mc' !! r = Asset.priority <$> objects mc !! r)
    /\ (forall r, r ∉ sel -> objects mc' !! r = objects mc !! r).
Proof.
  induction sel as [|x sel IH]; intros assets mc; cbn [load_each].
  - exists mc. split; [unfold ret; f_equal; f_equal; set_solver|].
    split; [apply same_catalogue_refl|]. split; reflexivity.
  - destruct (load_frame x None mc) as (mc1 & Hrun & Hcat & Hprio & Hother).
    destruct (IH ({[ x ]} ∪ assets) mc1) as (mc2 & Hrun2 & Hcat2 & Hprio2 & Hother2).
    exists mc2. unfold bind. rewrite Hrun, Hrun2.
    split; [f_equal; f_equal; set_solver|].
    split; [eapply same_catalogue_trans; eassumption|]. split.
    + intros r. rewrite Hprio2, Hprio. reflexivity.
    + intros r Hr. apply not_elem_of_cons in Hr as [Hne Hr].
      rewrite Hother2, Hother by assumption. reflexivity.
Qed.

Lemma load_by_key_in_spec (key : string) (classes : list asset_class) :
  forall (mc0 mc : MpfMc) (assets : gset ref),
  same_catalogue mc0 mc ->
  (forall ac r a, ac ∈ classes -> r ∈ namespace_values mc0 (attribute ac) ->
                  objects mc0 !! r = Some a -> is_Some (Asset.config a !! "load")) ->
  exists found mc',
    load_by_key_in key classes assets mc = (Ok found, mc')
    /\ same_catalogue mc0 mc'
    /\ (forall r, r ∈ found <->
          r ∈ assets
          \/ exists ac a, ac ∈ classes /\ r ∈ namespace_values mc0 (attribute ac)
                          /\ objects mc0 !! r = Some a
                          /\ Asset.config a !! "load" = Some (VStr key))
    /\ (forall r, Asset.priority <$> objects mc' !! r = Asset.priority <$> objects mc !! r)
    /\ (forall r, r ∉ found -> objects mc' !! r = objects mc !! r).
Proof.
  induction classes as [|ac classes IH]; intros mc0 mc assets Hcat Hall;
    cbn [load_by_key_in].
  - exists assets, mc. split; [reflexivity|]. split; [exact Hcat|]. split.
    + intros r. split; [auto|]. intros [H|(ac & a & Hin & _)]; [exact H | inversion Hin].
    + split; reflexivity.
  - destruct Hcat as (Hattrs & Hcls & Hcfg).
    assert (Hns : namespace_values mc (attribute ac) = namespace_values mc0 (attribute ac))
      by (unfold namespace_values; rewrite Hattrs; reflexivity).
    rewrite Hns, (with_load_key_same mc0 mc key _ Hcfg).
    destruct (with_load_key_ok mc0 key (namespace_values mc0 (attribute ac))) as [sel Hsel].
    { intros r a Hr. apply (Hall ac). apply elem_of_cons. auto. exact Hr. }
    rewrite Hsel. unfold bind.
    destruct (load_each_spec sel assets mc) as (mc1 & Hrun1 & Hcat1 & Hprio1 & Hother1).
    rewrite Hrun1.
    destruct (IH mc0 mc1 (list_to_set sel ∪ assets)) as (found & mc2 & Hrun2 & Hcat2 & Hmem & Hprio2 & Hother2).
    { eapply same_catalogue_trans; [|exact Hcat1]. repeat split; assumption. }
    { intros ac' r a Hac'. apply Hall. apply elem_of_cons. auto. }
    exists found, mc2. split; [exact Hrun2|]. split; [exact Hcat2|].
    pose proof (with_load_key_spec mc0 key _ sel Hsel) as Hselspec.
    split; [|split].
    + intros r. rewrite Hmem, elem_of_union, elem_of_list_to_set, Hselspec. split.
      * intros [[[Hin (a & Ha & Hl)]|Hin]|(ac' & a & Hac' & Hrest)].
        -- right. exists ac, a. split; [apply elem_of_cons; auto | auto].
        -- auto.
        -- right. exists ac', a. split; [apply elem_of_cons; auto | auto].
      * intros [Hin|(ac' & a & Hac' & Hr & Ha & Hl)]; [auto|].
        apply elem_of_cons in Hac' as [->|Hac'].
        -- left. left. eauto.
        -- right. exists ac', a. auto.
    + intros r. rewrite Hprio2, Hprio1. reflexivity.
    + intros r Hr. rewrite Hother2 by exact Hr. apply Hother1.
      intros Hin. apply Hr. apply Hmem. left. apply elem_of_union. left.
      apply elem_of_list_to_set. exact Hin.
Qed.

(** X16: when every asset of the registered classes has a [load] setting,
    [load_assets_by_load_key(key)] returns exactly the assets of those classes
    whose [load] setting is [key], after calling [load()] on each; it leaves
    every other asset as it was, and it changes no asset's priority: the
    [priority] argument is not passed on to [load()]. *)
Theorem load_assets_by_load_key_spec (mc : MpfMc) (key : string) (prio : Z) :
  (forall ac r a, ac ∈ _asset_classes mc -> r ∈ namespace_values mc (attribute ac) ->
                  objects mc !! r = Some a -> is_Some (Asset.config a !! "load")) ->
  exists found mc',
    load_assets_by_load_key key prio mc = (Ok found, mc')
    /\ (forall r, r ∈ found <->
          exists ac a, ac ∈ _asset_classes mc
                       /\ r ∈ namespace_values mc (attribute ac)
                       /\ objects mc !! r = Some a
                       /\ Asset.config a !! "load" = Some (VStr key))
    /\ (forall r, Asset.priority <$> objects mc' !! r = Asset.priority <$> objects mc !! r)
    /\ (forall r, r ∉ found -> objects mc' !! r = objects mc !! r).
Proof.
  intros Hall. unfold load_assets_by_load_key.
  destruct (load_by_key_in_spec key (_asset_classes mc) mc mc ∅
              (same_catalogue_refl mc) Hall)
    as (found & mc' & Hrun & _ & Hmem & Hprio & Hother).
  exists found, mc'. split; [exact Hrun|]. split; [|auto].
  intros r. rewrite Hmem. split.
  - intros [Hin|H]; [set_solver | exact H].
  - auto.
Qed.

Lemma mode_assets_have_load :
  forall ac r a,
  ac ∈ _asset_classes mc_with_mode_assets ->
  r ∈ namespace_values mc_with_mode_assets (attribute ac) ->
  objects mc_with_mode_assets !! r = Some a ->
  is_Some (Asset.config a !! "load").
Proof.
  intros ac r a Hac Hr Ha.
  change (_asset_classes mc_with_mode_assets)
    with [Build_asset_class "images" "images" "images" [".png"] 0 ∅] in Hac.
  apply list_elem_of_singleton in Hac. subst ac.
  assert (Hns : namespace_values mc_with_mode_assets "images" = [0; 1; 2]%nat)
    by (vm_compute; reflexivity).
  cbn [attribute] in Hr. rewrite Hns in Hr.
  assert (Hcase : r = 0%nat \/ r = 1%nat \/ r = 2%nat).
  { apply elem_of_cons in Hr as [->|Hr]; [auto|].
    apply elem_of_cons in Hr as [->|Hr]; [auto|].
    apply list_elem_of_singleton in Hr. auto. }
  destruct Hcase as [-> | [-> | ->]]; vm_compute in Ha; injection Ha as <-;
    vm_compute; eauto.
Qed.

(** X16 on three images, two of which load on [attract_start]: these two
    are found, with a priority argument of 7 that reaches neither. *)
Lemma load_assets_by_load_key_spec_witness :
  exists found mc',
    load_assets_by_load_key "attract_start" 7 mc_with_mode_assets = (Ok found, mc')
    /\ (forall r, r ∈ found <->
          exists ac a, ac ∈ _asset_classes mc_with_mode_assets
                       /\ r ∈ namespace_values mc_with_mode_assets (attribute ac)
                       /\ objects mc_with_mode_assets !! r = Some a
                       /\ Asset.config a !! "load" = Some (VStr "attract_start"))
    /\ (forall r, Asset.priority <$> objects mc' !! r
                  = Asset.priority <$> objects mc_with_mode_assets !! r)
    /\ (forall r, r ∉ found -> objects mc' !! r = objects mc_with_mode_assets !! r).
Proof.
  apply (load_assets_by_load_key_spec mc_with_mode_assets "attract_start" 7).
  exact mode_assets_have_load.
Defined.

Example load_assets_by_load_key_found :
  fst (load_assets_by_load_key "attract_start" 7 mc_with_mode_assets)
  = Ok ({[ 0%nat; 2%nat ]} : gset ref).
Proof. vm_compute. reflexivity. Qed.



(** ** Unloading in bulk *)

Lemma unload_ok {impl : AssetImpl} (self : ref) (mc : MpfMc) :
  (forall a, _do_unload a = Ok tt) ->
  exists mc',
    unload self mc = (Ok tt, mc')
    /\ (forall a, objects mc !! self = Some a ->
          exists a', objects mc' !! self = Some a'
                     /\ Asset.loaded a' = false /\ Asset.loading a' = false
                     /\ Asset.unloading a' = false)
    /\ (forall r, r <> self -> objects mc' !! r = objects mc !! r)
    /\ trace mc' = (trace mc ++ match objects mc !! self with
                                | Some _ => [DoUnload self]
                                | None => []
                                end)%list
    /\ loader_queue mc' = loader_queue mc
    /\ loaded_queue mc' = loaded_queue mc
    /\ num_assets_to_load mc' = num_assets_to_load mc
    /\ num_assets_loaded mc' = num_assets_loaded mc.
Proof.
  intros Hprim. unfold unload. rewrite !objects_update_asset.
  destruct (objects mc !! self) as [a|] eqn:Hobj; cbn [fmap option_fmap option_map].
  - rewrite Hprim. eexists. split; [reflexivity|]. split.
    { intros a0 Ha0. injection Ha0 as <-. objects_simpl. rewrite Hobj.
      eexists. split; [reflexivity|]. cbn. auto. }
    split; [intros r Hne; objects_simpl; reflexivity|].
    cbn. repeat split; reflexivity.
  - eexists. split; [reflexivity|]. split; [intros a0 Ha0; discriminate|].
    split; [intros r Hne; objects_simpl; reflexivity|].
    cbn. rewrite app_nil_r. repeat split; reflexivity.
Qed.

(** X18: with unload primitives that return, [unload_assets] leaves every
    asset it is given unloaded (not loaded, not loading, not unloading),
    invokes the primitive once per asset in the order given, leaves all other
    assets alone, and touches neither queue nor counter: requests already in
    the loader queue stay there. *)
Theorem unload_assets_all {impl : AssetImpl} (assets : list ref) :
  forall mc : MpfMc,
  (forall a, _do_unload a = Ok tt) ->
  Forall (fun r => is_Some (objects mc !! r)) assets ->
  exists mc',
    unload_assets assets mc = (Ok tt, mc')
    /\ (forall r, r ∈ assets ->
          exists a', objects mc' !! r = Some a'
                     /\ Asset.loaded a' = false /\ Asset.loading a' = false
                     /\ Asset.unloading a' = false)
    /\ (forall r, r ∉ assets -> objects mc' !! r = objects mc !! r)
    /\ trace mc' = (trace mc ++ map DoUnload assets)%list
    /\ loader_queue mc' = loader_queue mc
    /\ loaded_queue mc' = loaded_queue mc
    /\ num_assets_to_load mc' = num_assets_to_load mc
    /\ num_assets_loaded mc' = num_assets_loaded mc.
Proof.
  induction assets as [|x assets IH]; intros mc Hprim Hlive; unfold unload_assets;
    cbn [for_each].
  - exists mc. split; [reflexivity|]. split; [intros r Hr; inversion Hr|].
    split; [reflexivity|]. cbn. rewrite app_nil_r. repeat split; reflexivity.
  - apply Forall_cons in Hlive as [[ax Hx] Hlive].
    destruct (unload_ok x mc Hprim) as (mc1 & Hrun1 & Hself1 & Hoth1 & Htr1 & Hq1 & Hl1 & Hn1 & Hd1).
    assert (Hlive1 : Forall (fun r => is_Some (objects mc1 !! r)) assets).
    { eapply Forall_impl; [exact Hlive|]. intros r [ar Har]. cbn.
      destruct (decide (r = x)) as [->|Hne].
      - destruct (Hself1 ax Hx) as (a' & Ha' & _). eauto.
      - rewrite Hoth1 by exact Hne. eauto. }
    destruct (IH mc1 Hprim Hlive1)
      as (mc2 & Hrun2 & Hin2 & Hoth2 & Htr2 & Hq2 & Hl2 & Hn2 & Hd2).
    exists mc2. unfold bind. rewrite Hrun1. unfold unload_assets in Hrun2.
    split; [exact Hrun2|]. split; [|split].
    + intros r Hr. destruct (decide (r ∈ assets)) as [Hra|Hra]; [auto|].
      apply elem_of_cons in Hr as [->|Hr]; [|contradiction].
      rewrite (Hoth2 x Hra). apply (Hself1 ax Hx).
    + intros r Hr. apply not_elem_of_cons in Hr as [Hne Hr].
      rewrite Hoth2, Hoth1 by assumption. reflexivity.
    + rewrite Htr2, Htr1, Hx, Hq2, Hq1, Hl2, Hl1, Hn2, Hn1, Hd2, Hd1.
      rewrite <- app_assoc. repeat split; reflexivity.
Qed.

(** X18 on the three queued assets: all unloaded, the queue as it was. *)
Lemma unload_assets_all_witness :
  exists mc',
    unload_assets (impl := AssetClass_ok) [0; 1; 2]%nat mc_three_queued = (Ok tt, mc')
    /\ (forall r, r ∈ [0; 1; 2]%nat ->
          exists a', objects mc' !! r = Some a'
                     /\ Asset.loaded a' = false /\ Asset.loading a' = false
                     /\ Asset.unloading a' = false)
    /\ (forall r, r ∉ [0; 1; 2]%nat -> objects mc' !! r = objects mc_three_queued !! r)
    /\ trace mc' = (trace mc_three_queued ++ map DoUnload [0; 1; 2]%nat)%list
    /\ loader_queue mc' = loader_queue mc_three_queued
    /\ loaded_queue mc' = loaded_queue mc_three_queued
    /\ num_assets_to_load mc' = num_assets_to_load mc_three_queued
    /\ num_assets_loaded mc' = num_assets_loaded mc_three_queued.
Proof.
  apply (unload_assets_all (impl := AssetClass_ok) [0; 1; 2]%nat mc_three_queued).
  - intros a. reflexivity.
  - repeat constructor; vm_compute; eauto.
Defined.

(** ** Creating the asset objects *)

Lemma namespace_set_frame attr_name asset r mc :
  objects (namespace_set attr_name asset r mc) = objects mc
  /\ _next_id (namespace_set attr_name asset r mc) = _next_id mc.
Proof.
  unfold namespace_set. destruct (attrs mc !! attr_name) as [[d|]|]; auto.
Qed.




Lemma create_instance_ok (ac : asset_class) (n : string) (cfg : settings) (f : value)
    (mc : MpfMc) :
  cfg !! "file" = Some f ->
  exists r mc',
    create_instance ac (n, cfg) mc = (Ok tt, mc')
    /\ objects mc !! r = None
    /\ objects mc'
       = <[r := {| Asset.name := n; Asset.config := cfg; Asset.file := path_of_value f;
                   Asset.priority := config_priority cfg;
                   Asset._callbacks := ∅; Asset._id := _next_id mc + 1;
                   Asset.loading := false; Asset.loaded := false;
                   Asset.unloading := false |}]> (objects mc)
    /\ _next_id mc' = _next_id mc + 1.
Proof.
  intros Hf. unfold create_instance, getitem. cbn [fst snd]. rewrite Hf.
  unfold new_asset, _get_id. cbn [objects set__next_id _next_id].
  set (r := fresh (dom (objects mc))).
  exists r. eexists. split; [reflexivity|].
  split; [apply not_elem_of_dom, is_fresh|].
  destruct (namespace_set_frame (attribute ac) n r
              (set_objects (<[r := {| Asset.name := n; Asset.config := cfg;
                                      Asset.file := path_of_value f;
                                      Asset.priority := config_priority cfg;
                                      Asset._callbacks := ∅;
                                      Asset._id := _next_id mc + 1;
                                      Asset.loading := false; Asset.loaded := false;
                                      Asset.unloading := false |}]> (objects mc))
                 (set__next_id (_next_id mc + 1) mc))) as [Ho Hn].
  split; [rewrite Ho; reflexivity | rewrite Hn; reflexivity].
Qed.

(** X20: when every entry of a section has a [file] setting, the constructor
    loop of [_create_assets_from_disk] returns having created one new object
    per entry, in entry order: the object of the [i]-th entry has the entry's
    name and settings, the creation id [_next_id + i + 1], and starts
    unloaded; the objects that existed are untouched. *)
Theorem create_instances_ok (ac : asset_class) (entries : section) :
  forall mc : MpfMc,
  Forall (fun e => is_Some (snd e !! "file")) entries ->
  exists mc',
    for_each entries (create_instance ac) mc = (Ok tt, mc')
    /\ _next_id mc' = _next_id mc + Z.of_nat (length entries)
    /\ (forall r a, objects mc !! r = Some a -> objects mc' !! r = Some a)
    /\ (forall i n cfg, entries !! i = Some (n, cfg) ->
          exists r a,
            objects mc !! r = None
            /\ objects mc' !! r = Some a
            /\ Asset.name a = n /\ Asset.config a = cfg
            /\ Asset._id a = _next_id mc + Z.of_nat i + 1
            /\ Asset.loaded a = false /\ Asset.loading a = false
            /\ Asset.unloading a = false /\ Asset._callbacks a = ∅).
Proof.
  induction entries as [|[n0 cfg0] entries IH]; intros mc Hall.
  - exists mc. cbn. rewrite Z.add_0_r. repeat split; auto.
    intros i n cfg H. destruct i; discriminate.
  - apply Forall_cons in Hall as [[f Hf] Hall]. cbn [snd] in Hf.
    destruct (create_instance_ok ac n0 cfg0 f mc Hf) as (r0 & mc1 & Hrun1 & Hfresh & Ho1 & Hn1).
    destruct (IH mc1 Hall) as (mc2 & Hrun2 & Hn2 & Hkeep2 & Hnew2).
    assert (Hkeep1 : forall r a, objects mc !! r = Some a -> objects mc1 !! r = Some a).
    { intros r a Hr. rewrite Ho1. rewrite lookup_insert_ne; [exact Hr|].
      intros ->. congruence. }
    exists mc2. cbn [for_each]. unfold bind. rewrite Hrun1.
    split; [exact Hrun2|]. split; [|split].
    + rewrite Hn2, Hn1. cbn [length]. lia.
    + intros r a Hr. apply Hkeep2, Hkeep1, Hr.
    + intros [|i] n cfg Hi; cbn in Hi.
      * injection Hi as <- <-. exists r0. eexists.
        split; [exact Hfresh|]. split.
        { apply Hkeep2. rewrite Ho1. apply lookup_insert_eq. }
        cbn. repeat split; try reflexivity. lia.
      * destruct (Hnew2 i n cfg Hi) as (r & a & Hnone & Hsome & Hrest).
        exists r, a. split.
        { destruct (objects mc !! r) as [a0|] eqn:E; [|reflexivity].
          rewrite (Hkeep1 r a0 E) in Hnone. discriminate. }
        split; [exact Hsome|].
        destruct Hrest as (H1 & H2 & H3 & H4).
        split; [exact H1|]. split; [exact H2|]. split; [rewrite H3, Hn1; lia | exact H4].
Qed.

(** X20 on the entry discovery wrote for [x.png]. *)
Lemma create_instances_ok_witness :
  let entries : section :=
    [("x", {[ "a" := VInt 9; "b" := VInt 2; "load" := VStr "preload";
              "file" := VStr "/machine/images/foo/x.png" ]})] in
  exists mc',
    for_each entries (create_instance (registered_images assets_a1_b2_load))
             mc_images_registered = (Ok tt, mc')
    /\ _next_id mc' = _next_id mc_images_registered + Z.of_nat (length entries)
    /\ (forall r a, objects mc_images_registered !! r = Some a ->
                    objects mc' !! r = Some a)
    /\ (forall i n cfg, entries !! i = Some (n, cfg) ->
          exists r a,
            objects mc_images_registered !! r = None
            /\ objects mc' !! r = Some a
            /\ Asset.name a = n /\ Asset.config a = cfg
            /\ Asset._id a = _next_id mc_images_registered + Z.of_nat i + 1
            /\ Asset.loaded a = false /\ Asset.loading a = false
            /\ Asset.unloading a = false /\ Asset._callbacks a = ∅).
Proof.
  intros entries.
  apply (create_instances_ok (registered_images assets_a1_b2_load) entries
           mc_images_registered).
  repeat constructor. cbn. vm_compute. eauto.
Defined.

(** On the disk with [x.png] under [foo] and the entry [x: {a: 9}],
    [_create_assets_from_disk] returns with one image, [x], in the namespace
    and the merged settings in the config. *)
Example create_assets_from_disk_x :
  match _create_assets_from_disk walk_foo_x [("images", entries_x_a9)] None
                                 mc_images_registered with
  | (r, (config, mc')) =>
      r = Ok tt
      /\ config = [("images",
                    [("x", {[ "a" := VInt 9; "b" := VInt 2; "load" := VStr "preload";
                              "file" := VStr "/machine/images/foo/x.png" ]})])]
      /\ attrs mc' !! "images" = Some (AssetDict [("x", 0%nat)])
      /\ (Asset.name <$> objects mc' !! 0%nat) = Some "x"
  end.
Proof. vm_compute. repeat split; reflexivity. Qed.

(** ** The guard against loading twice *)

Lemma ref_lt_irrefl (mc : MpfMc) (r : ref) : ref_lt mc r r = false.
Proof.
  unfold ref_lt. destruct (objects mc !! r) as [a|]; [|reflexivity].
  unfold __lt__, Str.gtb, String.ltb.
  pose proof (String.compare_antisym (sort_key a) (sort_key a)) as H.
  destruct (String.compare (sort_key a) (sort_key a)); cbn in H;
    [reflexivity | discriminate | reflexivity].
Qed.

(** X21: the loader invokes the load primitive exactly when the asset it
    dequeued is not marked loaded; an asset that is marked loaded is published
    all the same, without the primitive being invoked. *)
Theorem run_turn_invokes_primitive_unless_loaded {impl : AssetImpl} (mc : MpfMc)
    (asset : ref) (q' : list ref) (a : Asset.t) :
  heappop (ref_lt mc) (loader_queue mc) = Some (asset, q') ->
  objects mc !! asset = Some a ->
  _do_load a = Ok tt ->
  exists mc',
    run_turn mc = Continue mc'
    /\ loaded_queue mc' = (loaded_queue mc ++ [asset])%list
    /\ trace mc' = (trace mc ++ (if Asset.loaded a then [] else [DoLoad asset]))%list
    /\ objects mc' = objects mc.
Proof.
  intros Hpop Hobj Hok. unfold run_turn. rewrite Hpop.
  cbn [objects set_loader_queue]. rewrite Hobj. unfold load_if_needed.
  destruct (Asset.loaded a); cbn [negb].
  - eexists. split; [reflexivity|]. cbn. rewrite app_nil_r. auto.
  - rewrite Hok. eexists. split; [reflexivity|]. cbn. auto.
Qed.

(** X21 on the one queued request. *)
Lemma run_turn_invokes_primitive_unless_loaded_witness :
  exists mc',
    run_turn (impl := AssetClass_ok) mc_one_queued = Continue mc'
    /\ loaded_queue mc' = (loaded_queue mc_one_queued ++ [0%nat])%list
    /\ trace mc' = (trace mc_one_queued ++ [DoLoad 0%nat])%list
    /\ objects mc' = objects mc_one_queued.
Proof.
  apply (run_turn_invokes_primitive_unless_loaded (impl := AssetClass_ok)
           mc_one_queued 0%nat []
           (Asset.set_loading true
              (Asset.set__callbacks {[ Some 7%nat ]} (fresh_asset "a" 1 (VInt 0))))).
  - vm_compute. reflexivity.
  - vm_compute. reflexivity.
  - reflexivity.
Defined.

(** X22: the guard only helps once a poll has run. If [load()] is called
    twice on an asset before the loader takes the first request, and the
    loader takes both before the next clock tick, the load primitive is
    invoked twice and the asset is published twice; the tick then marks the
    asset loaded, calls each pending callable once, counts both completions
    and resets the counters. *)
Theorem double_request_loads_twice {impl : AssetImpl} (mc : MpfMc) (self : ref)
    (a : Asset.t) (cb1 cb2 : callback) :
  objects mc !! self = Some a ->
  Asset.loaded a = false ->
  loader_queue mc = [] ->
  loaded_queue mc = [] ->
  num_assets_to_load mc = 0 ->
  num_assets_loaded mc = 0 ->
  _loaded_watcher mc = false ->
  check_loader_status_event ∉ clock mc ->
  (forall a', _do_load a' = Ok tt) ->
  let pending : gset callback := {[ cb2 ]} ∪ ({[ cb1 ]} ∪ Asset._callbacks a) in
  exists mc2 mc4 mc5 a5,
    bind (load self cb1 None) (fun _ => load self cb2 None) mc = (Ok tt, mc2)
    /\ num_assets_to_load mc2 = 2
    /\ loader_queue mc2 = [self; self]
    /\ run 2 mc2 = mc4
    /\ trace mc4 = (trace mc ++ [DoLoad self; DoLoad self])%list
    /\ loaded_queue mc4 = [self; self]
    /\ clock_tick mc4 = (Ok tt, mc5)
    /\ objects mc5 !! self = Some a5
    /\ is_Loaded a5
    /\ trace mc5 = (trace mc4 ++ map Called (callables pending))%list
    /\ num_assets_to_load mc5 = 0
    /\ num_assets_loaded mc5 = 0
    /\ _loaded_watcher mc5 = false.
Proof.
  intros Hobj Hl Hq Hlq Hn1 Hn2 Hw Hc Hprim pending.
  set (a1 := Asset.set_loading true
               (Asset.set__callbacks ({[ cb1 ]} ∪ Asset._callbacks a) a)).
  set (a2 := Asset.set_loading true (Asset.set__callbacks pending a1)).
  (* the first load *)
  assert (H1 : exists mc1,
             load self cb1 None mc = (Ok tt, mc1)
             /\ objects mc1 !! self = Some a1
             /\ loader_queue mc1 = [self] /\ loaded_queue mc1 = []
             /\ num_assets_to_load mc1 = 1 /\ num_assets_loaded mc1 = 0
             /\ _loaded_watcher mc1 = true
             /\ clock mc1 = (clock mc ++ [check_loader_status_event])%list
             /\ trace mc1 = trace mc).
  { unfold load. rewrite objects_update_asset, Hobj.
    cbn [fmap option_fmap option_map Asset.loaded Asset.set__callbacks].
    rewrite Hl. unfold _load_asset.
    cbn [_loaded_watcher set_loader_queue set_num_assets_to_load update_asset
         set_objects loader_queue num_assets_to_load clock].
    rewrite Hw, Hq, Hn1. cbn [negb].
    eexists. split; [reflexivity|]. cbn.
    rewrite !lookup_alter_eq, Hobj, Hlq, Hn2. repeat split; reflexivity. }
  destruct H1 as (mc1 & Hrun1 & Ho1 & Hq1 & Hlq1 & Ht1 & Hd1 & Hw1 & Hc1 & Htr1).
  (* the second load *)
  assert (H2 : exists mc2,
             load self cb2 None mc1 = (Ok tt, mc2)
             /\ objects mc2 !! self = Some a2
             /\ loader_queue mc2 = [self; self] /\ loaded_queue mc2 = []
             /\ num_assets_to_load mc2 = 2 /\ num_assets_loaded mc2 = 0
             /\ _loaded_watcher mc2 = true
             /\ clock mc2 = (clock mc ++ [check_loader_status_event])%list
             /\ trace mc2 = trace mc).
  { unfold load. rewrite objects_update_asset, Ho1.
    cbn [fmap option_fmap option_map Asset.loaded Asset.set__callbacks
         Asset.set_loading a1].
    rewrite Hl. unfold _load_asset.
    cbn [_loaded_watcher set_loader_queue set_num_assets_to_load update_asset
         set_objects loader_queue num_assets_to_load clock].
    rewrite Hw1, Hq1, Ht1. cbn [negb].
    unfold heappush. cbn [app length]. unfold _siftdown.
    cbn [lookup list_lookup _siftdown_loop Nat.ltb Nat.leb Nat.sub Nat.div Nat.divmod fst].
    rewrite ref_lt_irrefl.
    eexists. split; [reflexivity|]. cbn.
    rewrite !lookup_alter_eq, Ho1, ?Hlq1, ?Hd1, ?Hc1, ?Htr1, ?Hw1.
    repeat split; reflexivity. }
  destruct H2 as (mc2 & Hrun2 & Ho2 & Hq2 & Hlq2 & Ht2 & Hd2 & Hw2 & Hc2 & Htr2).
  (* two turns of the loader *)
  assert (H3 : exists mc3,
             run_turn mc2 = Continue mc3
             /\ objects mc3 = objects mc2
             /\ loader_queue mc3 = [self] /\ loaded_queue mc3 = [self]
             /\ num_assets_to_load mc3 = 2 /\ num_assets_loaded mc3 = 0
             /\ _loaded_watcher mc3 = true /\ clock mc3 = clock mc2
             /\ trace mc3 = (trace mc ++ [DoLoad self])%list).
  { unfold run_turn. rewrite Hq2. unfold heappop.
    cbn [last removelast]. unfold _siftup.
    cbn [lookup list_lookup list_insert insert length _siftup_loop Nat.ltb Nat.leb
         Nat.mul Nat.add].
    unfold _siftdown. cbn [lookup list_lookup _siftdown_loop list_insert insert].
    cbn [objects set_loader_queue]. rewrite Ho2.
    unfold load_if_needed. cbn [Asset.loaded a2 a1 Asset.set_loading Asset.set__callbacks].
    rewrite Hl. cbn [negb]. rewrite Hprim.
    eexists. split; [reflexivity|]. cbn.
    rewrite Hlq2, Ht2, Hd2, Hw2, Htr2. repeat split; reflexivity. }
  destruct H3 as (mc3 & Hrun3 & Ho3 & Hq3 & Hlq3 & Ht3 & Hd3 & Hw3 & Hc3 & Htr3).
  assert (H4 : exists mc4,
             run_turn mc3 = Continue mc4
             /\ objects mc4 = objects mc2
             /\ loader_queue mc4 = [] /\ loaded_queue mc4 = [self; self]
             /\ num_assets_to_load mc4 = 2 /\ num_assets_loaded mc4 = 0
             /\ _loaded_watcher mc4 = true /\ clock mc4 = clock mc2
             /\ trace mc4 = (trace mc ++ [DoLoad self; DoLoad self])%list).
  { unfold run_turn. rewrite Hq3. cbn [heappop last removelast].
    cbn [objects set_loader_queue]. rewrite Ho3, Ho2.
    unfold load_if_needed. cbn [Asset.loaded a2 a1 Asset.set_loading Asset.set__callbacks].
    rewrite Hl. cbn [negb]. rewrite Hprim.
    eexists. split; [reflexivity|]. cbn.
    rewrite Ho3, Hlq3, Ht3, Hd3, Hw3, Hc3, Htr3, <- app_assoc.
    repeat split; reflexivity. }
  destruct H4 as (mc4 & Hrun4 & Ho4 & Hq4 & Hlq4 & Ht4 & Hd4 & Hw4 & Hc4 & Htr4).
  exists mc2, mc4.
  (* the tick *)
  assert (Hin : check_loader_status_event ∈ clock mc4).
  { rewrite Hc4, Hc2. apply elem_of_app. right. apply list_elem_of_singleton. reflexivity. }
  unfold clock_tick. rewrite (bool_decide_eq_true_2 _ Hin).
  unfold _check_loader_status. rewrite Hlq4.
  cbn [drain_loaded_queue]. unfold _loaded, _call_callbacks.
  objects_simpl. rewrite Ho4, Ho2. cbn [fmap option_fmap option_map].
  objects_simpl. rewrite Ho4, Ho2. cbn [fmap option_fmap option_map].
  cbn [ret num_assets_to_load num_assets_loaded set_num_assets_loaded update_asset
       set_objects set_trace set_loaded_queue].
  rewrite Ht4, Hd4. cbn [Z.add Z.eqb Pos.add Pos.eqb Pos.succ].
  eexists. eexists.
  split; [unfold bind; rewrite Hrun1; exact Hrun2|].
  split; [exact Ht2|]. split; [exact Hq2|].
  split; [cbn [run]; rewrite Hrun3, Hrun4; reflexivity|].
  split; [exact Htr4|]. split; [first [exact Hlq4 | reflexivity]|].
  split; [reflexivity|].
  split.
  { cbn. rewrite !lookup_alter_eq, Ho4, Ho2. reflexivity. }
  split; [unfold is_Loaded; cbn; auto|].
  cbn. unfold callables at 2. rewrite elements_empty. cbn. rewrite app_nil_r.
  repeat split; reflexivity.
Qed.

(** X22 on asset [a] of two created ones, requested with callables [7] and
    [8]. *)
Lemma double_request_loads_twice_witness :
  let pending : gset callback := {[ Some 8%nat ]} ∪ ({[ Some 7%nat ]} ∪ ∅) in
  exists mc2 mc4 mc5 a5,
    bind (load 0%nat (Some 7%nat) None) (fun _ => load 0%nat (Some 8%nat) None)
         mc_two_created = (Ok tt, mc2)
    /\ num_assets_to_load mc2 = 2
    /\ loader_queue mc2 = [0; 0]%nat
    /\ run (impl := AssetClass_ok) 2 mc2 = mc4
    /\ trace mc4 = (trace mc_two_created ++ [DoLoad 0%nat; DoLoad 0%nat])%list
    /\ loaded_queue mc4 = [0; 0]%nat
    /\ clock_tick mc4 = (Ok tt, mc5)
    /\ objects mc5 !! 0%nat = Some a5
    /\ is_Loaded a5
    /\ trace mc5 = (trace mc4 ++ map Called (callables pending))%list
    /\ num_assets_to_load mc5 = 0
    /\ num_assets_loaded mc5 = 0
    /\ _loaded_watcher mc5 = false.
Proof.
  apply (double_request_loads_twice (impl := AssetClass_ok) mc_two_created 0%nat
           (fresh_asset "a" 1 (VInt 0)) (Some 7%nat) (Some 8%nat)).
  - vm_compute. reflexivity.
  - reflexivity.
  - reflexivity.
  - reflexivity.
  - reflexivity.
  - reflexivity.
  - reflexivity.
  - vm_compute. apply not_elem_of_nil.
  - intros a'. reflexivity.
Defined.
